(** * Attendance by face recognition: matcher, consensus vote, schedule lookup

    A shallow embedding of the identification-and-decision core of the
    attendance application: [face_recog.py] (class [FaceService]) and the
    recognition endpoint and the profile deletion of [app.py].

    Conventions of the embedding.
    - Python [int] is [Z]; counts and lengths are [nat].
    - A numpy embedding is a one-dimensional array, modelled as [list R]: its
      shape is its length.  The float arithmetic of numpy is read over the
      real numbers (no rounding, no overflow, no NaN).
    - A Python [dict] keeps insertion order, so it is an association list.
    - [None] is [option]'s [None]; an exception swallowed by [try/except] is
      an [option] that the caller matches on.  The [cv2.error] that
      [cv2.imdecode] raises in the endpoint is caught by nothing: it ends the
      request with a server error.
    - The external services (OpenCV, DeepFace, the file system, Supabase) are
      part of an explicit [World] value, with flags that say whether a call
      to them succeeds. *)

From Stdlib Require Import List ZArith Reals Lra Lia Bool String Ascii.
From Stdlib Require Import Permutation.
Import ListNotations.

(** ** Python dictionaries with integer keys *)

Module Py.

Definition dict (V : Type) : Type := list (Z * V).

(** [d[k] = v]: an existing key keeps its position and takes the new value, a
    new key goes last. *)
Fixpoint dict_set {V : Type} (d : dict V) (k : Z) (v : V) : dict V :=
  match d with
  | [] => [(k, v)]
  | (k', v') :: r =>
      if Z.eqb k' k then (k', v) :: r else (k', v') :: dict_set r k v
  end.

Fixpoint dict_get {V : Type} (d : dict V) (k : Z) : option V :=
  match d with
  | [] => None
  | (k', v') :: r => if Z.eqb k' k then Some v' else dict_get r k
  end.

Definition dict_del {V : Type} (d : dict V) (k : Z) : dict V :=
  filter (fun kv => negb (Z.eqb (fst kv) k)) d.

(** [str.lstrip('/')]. *)
Fixpoint lstrip_slash (s : string) : string :=
  match s with
  | String "/"%char r => lstrip_slash r
  | _ => s
  end.

Definition startswith_slash (s : string) : bool :=
  match s with
  | String "/"%char _ => true
  | _ => false
  end.

Fixpoint endswith_slash (s : string) : bool :=
  match s with
  | EmptyString => false
  | String c EmptyString => Ascii.eqb c "/"%char
  | String _ r => endswith_slash r
  end.

(** [os.path.join(a, b)] on POSIX. *)
Definition os_path_join (a b : string) : string :=
  if startswith_slash b then b
  else if orb (String.eqb a EmptyString) (endswith_slash a) then (a ++ b)%string
  else (a ++ "/" ++ b)%string.

End Py.

(** ** The part of numpy the matcher uses *)

Module Np.

Open Scope R_scope.

Definition ndarray : Type := list R.

Definition shape (a : ndarray) : nat := List.length a.

(** [np.dot] on two one-dimensional arrays of one length. *)
Fixpoint dot (a b : ndarray) : R :=
  match a, b with
  | x :: a', y :: b' => x * y + dot a' b'
  | _, _ => 0
  end.

(** [np.linalg.norm]: the Euclidean norm. *)
Definition norm (a : ndarray) : R := sqrt (dot a a).

Fixpoint sub_same (a b : ndarray) : ndarray :=
  match a, b with
  | x :: a', y :: b' => (x - y) :: sub_same a' b'
  | _, _ => []
  end.

(** [a - b] with numpy's broadcasting on one-dimensional arrays: equal
    lengths subtract pointwise, a one-element array is stretched over the
    other, and any other pair raises [ValueError] ([None]). *)
Definition sub (a b : ndarray) : option ndarray :=
  if Nat.eqb (List.length a) (List.length b) then Some (sub_same a b)
  else match a, b with
       | [x], _ => Some (map (fun y => x - y) b)
       | _, [y] => Some (map (fun x => x - y) a)
       | _, _ => None
       end.

End Np.

(** ** face_recog.py *)

Module FaceRecog.

Import Py Np.
Open Scope R_scope.

(** What [DeepFace.represent] does on an image: it raises, or it returns a
    list whose first entry holds an embedding ([Some]) or not ([None]: empty
    list or no ['embedding'] key). *)
Inductive DeepFaceResult : Type :=
| Raises
| Returns (embedding : option ndarray).

(** An image is modelled by what the perception libraries compute from it:
    the outcome of DeepFace on it and its 64x64 grayscale thumbnail,
    flattened and divided by 255. *)
Record Image : Type := mkImage {
  represent : DeepFaceResult;
  gray64 : ndarray
}.

(** The services around the face service. *)
Record World : Type := mkWorld {
  _HAS_CV2 : bool;                     (* [_HAS_CV2] *)
  cwd : string;                       (* [os.getcwd()] *)
  imread : string -> option Image;    (* [cv2.imread] *)
  emb_files : dict ndarray;           (* data/embeddings/<id>.npy, in glob order *)
  disk_ok : bool;                     (* [np.save] succeeds *)
  face_embeddings : dict ndarray;     (* rows of the Supabase table *)
  remote_up : bool                    (* calls to Supabase succeed *)
}.

Record FaceService : Type := mkFaceService {
  has_nn : bool;                         (* [_HAS_DEEPFACE] at construction *)
  supabase : bool;                       (* [self.supabase is not None] *)
  _emb_cache : option (dict ndarray)
}.

Definition set_cache (s : FaceService) (c : option (dict ndarray)) : FaceService :=
  mkFaceService (has_nn s) (supabase s) c.

Definition set_emb_files (w : World) (f : dict ndarray) : World :=
  mkWorld (_HAS_CV2 w) (cwd w) (imread w) f (disk_ok w) (face_embeddings w) (remote_up w).

Definition set_face_embeddings (w : World) (t : dict ndarray) : World :=
  mkWorld (_HAS_CV2 w) (cwd w) (imread w) (emb_files w) (disk_ok w) t (remote_up w).

(** [FaceService.__init__] *)
Definition init (has_deepface : bool) (supabase_client : bool) : FaceService :=
  mkFaceService has_deepface supabase_client None.

(** [FaceService._compute_embedding] *)
Definition _compute_embedding (w : World) (s : FaceService) (img : Image)
  : option ndarray :=
  if negb (_HAS_CV2 w) then None
  else
    let fallback := Some (gray64 img) in
    if has_nn s then
      match represent img with
      | Raises => None
      | Returns (Some emb) => Some emb
      | Returns None => fallback
      end
    else fallback.

(** The served path "/uploads/.." mapped to the file system. *)
Definition fs_path (w : World) (img_path : string) : string :=
  if startswith_slash img_path
  then os_path_join (cwd w) (lstrip_slash img_path)
  else img_path.

(** [FaceService.enroll_from_path] *)
Definition enroll_from_path (w : World) (s : FaceService)
    (img_path : string) (student_id : Z) : World * FaceService * bool :=
  if orb (negb (_HAS_CV2 w)) (String.eqb img_path EmptyString) then (w, s, false)
  else
    let path := fs_path w img_path in
    match imread w path with
    | None => (w, s, false)
    | Some img =>
        match _compute_embedding w s img with
        | None => (w, s, false)
        | Some e =>
            let w1 :=
              if disk_ok w
              then set_emb_files w (dict_set (emb_files w) student_id e)
              else w in
            if supabase s then
              if remote_up w1
              then (set_face_embeddings w1 (dict_set (face_embeddings w1) student_id e),
                    set_cache s None, true)
              else (w1, s, true)
            else (w1, s, true)
        end
    end.

(** The rows of the table that enter the cache: [emb.size > 0]. *)
Fixpoint load_rows (rows : dict ndarray) (cache : dict ndarray) : dict ndarray :=
  match rows with
  | [] => cache
  | (sid, emb) :: r =>
      load_rows r (if Nat.ltb 0 (List.length emb) then dict_set cache sid emb else cache)
  end.

Fixpoint load_files (files : dict ndarray) (cache : dict ndarray) : dict ndarray :=
  match files with
  | [] => cache
  | (sid, emb) :: r => load_files r (dict_set cache sid emb)
  end.

(** The cache as [predict_student_id] finds or fills it. *)
Definition load_cache (w : World) (s : FaceService) : dict ndarray :=
  match _emb_cache s with
  | Some c => c
  | None =>
      if supabase s then
        if remote_up w then load_rows (face_embeddings w) []
        else load_files (emb_files w) []
      else load_files (emb_files w) []
  end.

Definition EPS : R := 1 / 100000000.

(** The body of the [try] in the scan, up to [dist] and [is_cosine]; [None]
    is the exception that [except Exception: continue] swallows.  The
    arithmetic is that of the reals: what is proved from it is about the
    order of distances and about thresholds, not about the last bits of a
    float. *)
Definition distance (ref e : ndarray) : option (R * bool) :=
  if Nat.eqb (shape ref) (shape e) then
    let num := dot ref e in
    let den := norm ref * norm e + EPS in
    Some (1 - num / den, true)
  else
    match sub ref e with
    | Some d => Some (norm d, false)
    | None => None
    end.

(** [best_score] starts at [float('inf')]. *)
Inductive score : Type :=
| Inf
| Fin (r : R).

Definition lt_score (d : R) (b : score) : bool :=
  match b with
  | Inf => true
  | Fin r => if Rlt_dec d r then true else false
  end.

Definition gt_score (b : score) (t : R) : bool :=
  match b with
  | Inf => true
  | Fin r => if Rgt_dec r t then true else false
  end.

Record Best : Type := mkBest {
  best_id : option Z;
  best_score : score;
  best_is_cosine : bool
}.

Definition best0 : Best := mkBest None Inf false.

Definition scan_step (e : ndarray) (b : Best) (item : Z * ndarray) : Best :=
  match distance (snd item) e with
  | Some (dist, is_cosine) =>
      if lt_score dist (best_score b)
      then mkBest (Some (fst item)) (Fin dist) is_cosine
      else b
  | None => b
  end.

Definition scan (cache : dict ndarray) (e : ndarray) : Best :=
  fold_left (scan_step e) cache best0.

(** The end of [predict_student_id], from the scan on. *)
Definition match_embedding (cache : dict ndarray) (e : ndarray)
    (threshold_nn threshold_fallback : R) : option Z :=
  let b := scan cache e in
  match best_id b with
  | None => None
  | Some sid =>
      if best_is_cosine b then
        if gt_score (best_score b) threshold_nn then None else Some sid
      else
        if gt_score (best_score b) threshold_fallback then None else Some sid
  end.

(** [FaceService.predict_student_id] *)
Definition predict_student_id (w : World) (s : FaceService) (frame_bgr : Image)
    (threshold_nn threshold_fallback : R) : FaceService * option Z :=
  match _compute_embedding w s frame_bgr with
  | None => (s, None)
  | Some e =>
      let cache := load_cache w s in
      (set_cache s (Some cache),
       match_embedding cache e threshold_nn threshold_fallback)
  end.

Definition THRESHOLD_NN : R := 35 / 100.
Definition THRESHOLD_FALLBACK : R := 6 / 10.

(** The call with the default thresholds, as [app.py] makes it. *)
Definition predict_student_id_default (w : World) (s : FaceService)
    (frame_bgr : Image) : FaceService * option Z :=
  predict_student_id w s frame_bgr THRESHOLD_NN THRESHOLD_FALLBACK.

End FaceRecog.

(** ** app.py: the recognition endpoint and the profile deletion *)

Module App.

Import Py Np FaceRecog.

(** [datetime.now()], as far as the endpoint reads it. *)
Record datetime : Type := mkDatetime {
  toordinal : Z;      (* [now.date().toordinal()] *)
  hour : nat;
  minute : nat
}.

(** [now.weekday()]: 0 is Monday. *)
Definition weekday (now : datetime) : Z := (toordinal now + 6) mod 7.

Definition digit (n : nat) : ascii := ascii_of_nat (48 + n).

Definition two_digits (n : nat) : string :=
  String (digit (n / 10)) (String (digit (n mod 10)) EmptyString).

(** [now.strftime('%H:%M')] *)
Definition strftime_HM (now : datetime) : string :=
  (two_digits (hour now) ++ ":" ++ two_digits (minute now))%string.

(** The columns of models.py that the endpoint reads or writes. *)
Record Student : Type := mkStudent {
  student_pk : Z;
  student_name : string;
  student_class_id : option Z
}.

Record Subject : Type := mkSubject {
  subject_pk : Z;
  subject_name : string
}.

Record StudentTimetable : Type := mkStudentTimetable {
  st_student_id : Z;
  st_subject_id : Z;
  st_weekday : Z;
  start_time : string;
  end_time : string
}.

Record Attendance : Type := mkAttendance {
  att_student_id : Z;
  att_subject_id : option Z;
  att_class_id : option Z;
  att_timestamp : datetime;
  att_is_present : bool;
  att_method : string
}.

Record DB : Type := mkDB {
  students : list Student;
  subjects : list Subject;
  student_timetables : list StudentTimetable;
  attendance : list Attendance
}.

(** A per-frame verdict: a student id or [None]. *)
Definition verdict : Type := option Z.

Definition verdict_eqb (a b : verdict) : bool :=
  match a, b with
  | None, None => true
  | Some x, Some y => Z.eqb x y
  | _, _ => false
  end.

(** [collections.Counter]: keys in order of first occurrence. *)
Fixpoint counter_add (c : list (verdict * nat)) (k : verdict) : list (verdict * nat) :=
  match c with
  | [] => [(k, 1%nat)]
  | (k', n) :: r =>
      if verdict_eqb k' k then (k', S n) :: r else (k', n) :: counter_add r k
  end.

Definition Counter (preds : list verdict) : list (verdict * nat) :=
  fold_left counter_add preds [].

(** [max(items, key=itemgetter(1))]: the first item of greatest count. *)
Fixpoint max_by_count (best : verdict * nat) (items : list (verdict * nat))
  : verdict * nat :=
  match items with
  | [] => best
  | x :: r => max_by_count (if Nat.ltb (snd best) (snd x) then x else best) r
  end.

(** [cnt.most_common(1)] *)
Definition most_common_1 (cnt : list (verdict * nat)) : list (verdict * nat) :=
  match cnt with
  | [] => []
  | x :: r => [max_by_count x r]
  end.

(** An uploaded file, by what [cv2.imdecode] does with its bytes (line 558):
    on an empty buffer it raises [cv2.error]; on any other buffer it returns
    the image, or [None] when the bytes are no image. *)
Inductive Upload : Type :=
| EmptyFile
| Bytes (img : option Image).

(** Lines 554-562: one verdict per frame that decodes.  The loop has no
    [try]: the result is [None] when [cv2.imdecode] raises, the service being
    as the frames before the empty file left it. *)
Fixpoint collect_preds (w : World) (s : FaceService) (files : list Upload)
    (preds : list verdict) : FaceService * option (list verdict) :=
  match files with
  | [] => (s, Some preds)
  | EmptyFile :: _ => (s, None)
  | Bytes None :: r => collect_preds w s r preds
  | Bytes (Some img) :: r =>
      let '(s', pid) := predict_student_id_default w s img in
      collect_preds w s' r (preds ++ [pid])
  end.

Inductive Vote : Type :=
| NoValidFrames
| Inconsistent
| Majority (student_id : Z)
| IndexError.

(** Lines 564-578: the majority vote. *)
Definition majority_vote (preds : list verdict) : Vote :=
  match preds with
  | [] => NoValidFrames
  | _ :: _ =>
      match most_common_1 (Counter preds) with
      | [] => IndexError
      | (best_id, best_count) :: _ =>
          match best_id with
          | None => Inconsistent
          | Some student_id =>
              if Nat.leb best_count (List.length preds / 2) then Inconsistent
              else Majority student_id
          end
      end
  end.

(** The answers of the endpoint. *)
Inductive Response : Type :=
| Unauthorized
| NoFiles
| OpencvNotInstalled
| BadImageFrames
| FaceNotRecognized
| StudentNotFound
| AttendanceMarked (student_id : Z) (name : string) (subject_id : Z) (subject : string)
| AttendanceAlreadyMarked (student_id : Z) (name : string) (subject_id : Z) (subject : string)
| NoMatchingClass (student_id : Z) (name : string)
| InternalServerError.

(** [Student.query.get] and [Subject.query.get] *)
Definition get_student (db : DB) (pk : Z) : option Student :=
  find (fun st => Z.eqb (student_pk st) pk) (students db).

Definition get_subject (db : DB) (pk : Z) : option Subject :=
  find (fun sb => Z.eqb (subject_pk sb) pk) (subjects db).

(** [ORDER BY start_time], keeping the table order among equal keys. *)
Fixpoint insert_by_start (r : StudentTimetable) (l : list StudentTimetable)
  : list StudentTimetable :=
  match l with
  | [] => [r]
  | x :: l' =>
      if String.leb (start_time r) (start_time x) then r :: x :: l'
      else x :: insert_by_start r l'
  end.

Fixpoint order_by_start_time (l : list StudentTimetable) : list StudentTimetable :=
  match l with
  | [] => []
  | r :: l' => insert_by_start r (order_by_start_time l')
  end.

(** Lines 591-597: today's timetable rows of the student. *)
Definition timetable_rows (db : DB) (student_id wd : Z) : list StudentTimetable :=
  order_by_start_time
    (filter (fun r => andb (Z.eqb (st_student_id r) student_id) (Z.eqb (st_weekday r) wd))
            (student_timetables db)).

Definition in_slot (now_str : string) (r : StudentTimetable) : bool :=
  andb (String.leb (start_time r) now_str) (String.leb now_str (end_time r)).

(** Lines 602-607: the first row whose interval holds [now_str]. *)
Fixpoint current_slot (rows : list StudentTimetable) (now_str : string)
  : option StudentTimetable :=
  match rows with
  | [] => None
  | r :: rows' => if in_slot now_str r then Some r else current_slot rows' now_str
  end.

(** Lines 586-607. *)
Definition resolve (db : DB) (student_id : Z) (now : datetime)
  : option StudentTimetable :=
  current_slot (timetable_rows db student_id (weekday now)) (strftime_HM now).

(** Lines 611-615: the record of the student for the subject on that date. *)
Definition is_record (student_id subject_id : Z) (date : Z) (a : Attendance) : bool :=
  andb (Z.eqb (att_student_id a) student_id)
    (andb (match att_subject_id a with
           | Some sj => Z.eqb sj subject_id
           | None => false
           end)
          (Z.eqb (toordinal (att_timestamp a)) date)).

Definition existing (db : DB) (student_id subject_id : Z) (now : datetime)
  : option Attendance :=
  find (is_record student_id subject_id (toordinal now)) (attendance db).

Definition add_attendance (db : DB) (a : Attendance) : DB :=
  mkDB (students db) (subjects db) (student_timetables db) (attendance db ++ [a]).

(** Lines 580-669: from the accepted student id to the answer. *)
Definition resolve_and_decide (db : DB) (student_id : Z) (now : datetime)
  : DB * Response :=
  match get_student db student_id with
  | None => (db, StudentNotFound)
  | Some student =>
      let slot := resolve db student_id now in
      let subject_id := option_map st_subject_id slot in
      let current_subject :=
        match subject_id with
        | Some sj => get_subject db sj
        | None => None
        end in
      match subject_id, current_subject with
      | Some sj, Some subj =>
          if Z.eqb sj 0 then (db, NoMatchingClass student_id (student_name student))
          else
            match existing db student_id sj now with
            | None =>
                let att := mkAttendance student_id (Some sj) (student_class_id student)
                             now true "face" in
                (add_attendance db att,
                 AttendanceMarked student_id (student_name student) sj (subject_name subj))
            | Some _ =>
                (db, AttendanceAlreadyMarked student_id (student_name student) sj
                       (subject_name subj))
            end
      | _, _ => (db, NoMatchingClass student_id (student_name student))
      end
  end.

(** [attendance_recognize] *)
Definition attendance_recognize (authorized : bool) (w : World) (s : FaceService)
    (db : DB) (files : list Upload) (now : datetime)
  : FaceService * DB * Response :=
  if negb authorized then (s, db, Unauthorized)
  else
    match files with
    | [] => (s, db, NoFiles)
    | _ :: _ =>
        if negb (_HAS_CV2 w) then (s, db, OpencvNotInstalled)
        else
          match collect_preds w s files [] with
          | (s', None) => (s', db, InternalServerError)
          | (s', Some preds) =>
              match majority_vote preds with
              | NoValidFrames => (s', db, BadImageFrames)
              | Inconsistent => (s', db, FaceNotRecognized)
              | IndexError => (s', db, InternalServerError)
              | Majority student_id =>
                  let '(db', resp) := resolve_and_decide db student_id now in
                  (s', db', resp)
              end
          end
    end.

(** Lines 833-842 of [delete_student_profile]: the embedding file and the
    Supabase row go; the face service is not told. *)
Definition delete_embedding (w : World) (app_supabase : bool) (student_id : Z) : World :=
  let w1 := set_emb_files w (dict_del (emb_files w) student_id) in
  if app_supabase then
    if remote_up w1
    then set_face_embeddings w1 (dict_del (face_embeddings w1) student_id)
    else w1
  else w1.

(** [delete_student_profile] for the logged-in student [student_id]: the
    timetable rows, the attendance records, the embedding and the student
    row are deleted. *)
Definition delete_student_profile (w : World) (app_supabase : bool) (db : DB)
    (student_id : Z) : option (World * DB) :=
  match get_student db student_id with
  | None => None
  | Some _ =>
      let db' :=
        mkDB (filter (fun st => negb (Z.eqb (student_pk st) student_id)) (students db))
             (subjects db)
             (filter (fun r => negb (Z.eqb (st_student_id r) student_id))
                     (student_timetables db))
             (filter (fun a => negb (Z.eqb (att_student_id a) student_id))
                     (attendance db)) in
      Some (delete_embedding w app_supabase student_id, db')
  end.

End App.

Import Py Np FaceRecog App.

(** ** app.py: manual attendance, the timetable form, the dashboard counts *)

(** A form field read with [request.form.get(.., type=int)] is an integer or
    [None]; Python's truth value of it. *)
Definition truthy (x : option Z) : bool :=
  match x with
  | Some v => negb (Z.eqb v 0)
  | None => false
  end.

Inductive ManualResponse : Type :=
| ManualUnauthorized          (* 403 *)
| MissingRequiredFields       (* 400 *)
| MarkedSuccessfully
| ManualServerError.          (* 500, after the rollback *)

(** [manual_attendance]; [commit_ok] says whether [db.session.commit()]
    returns or raises. *)
Definition manual_attendance (authorized commit_ok : bool) (db : DB)
    (student_id day subject_id : option Z) (now : datetime) : DB * ManualResponse :=
  if negb authorized then (db, ManualUnauthorized)
  else
    match student_id, day, subject_id with
    | Some sid, Some _, Some sj =>
        if andb (truthy student_id) (truthy subject_id) then
          let att := mkAttendance sid (Some sj) None now true "manual" in
          if commit_ok then (add_attendance db att, MarkedSuccessfully)
          else (db, ManualServerError)
        else (db, MissingRequiredFields)
    | _, _, _ => (db, MissingRequiredFields)
    end.

Inductive TimetableResponse : Type :=
| RedirectLogin
| NotFound404
| EntryAdded
| TimetableServerError.

(** [student_timetable_view] on a POST with [action == 'add']: the entry is
    appended for the logged-in student, with no check against the entries
    that exist. *)
Definition student_timetable_add (session_student_id : option Z) (commit_ok : bool)
    (db : DB) (wd subject_id : Z) (start_t end_t : string) : DB * TimetableResponse :=
  match session_student_id with
  | None => (db, RedirectLogin)
  | Some student_id =>
      if Z.eqb student_id 0 then (db, RedirectLogin)
      else
        match get_student db student_id with
        | None => (db, NotFound404)
        | Some student =>
            let entry :=
              mkStudentTimetable (student_pk student) subject_id wd start_t end_t in
            if commit_ok
            then (mkDB (students db) (subjects db) (student_timetables db ++ [entry])
                       (attendance db),
                  EntryAdded)
            else (db, TimetableServerError)
        end
  end.

(** Lines 743-746 of [student_dashboard]: total, present and absent. *)
Definition dashboard_overall (db : DB) (student_id : Z) : Z * Z * Z :=
  let total :=
    Z.of_nat (List.length
      (filter (fun a => Z.eqb (att_student_id a) student_id) (attendance db))) in
  let present :=
    Z.of_nat (List.length
      (filter (fun a => andb (Z.eqb (att_student_id a) student_id) (att_is_present a))
              (attendance db))) in
  (total, present, (total - present)%Z).

Definition of_subject (subject_id : Z) (a : Attendance) : bool :=
  match att_subject_id a with
  | Some sj => Z.eqb sj subject_id
  | None => false
  end.

(** Lines 751-753 of [student_dashboard]: the counts of one subject. *)
Definition dashboard_subject (db : DB) (student_id subject_id : Z) : Z * Z * Z :=
  let st_total :=
    Z.of_nat (List.length
      (filter (fun a => andb (Z.eqb (att_student_id a) student_id)
                             (of_subject subject_id a))
              (attendance db))) in
  let st_present :=
    Z.of_nat (List.length
      (filter (fun a => andb (Z.eqb (att_student_id a) student_id)
                             (andb (of_subject subject_id a) (att_is_present a)))
              (attendance db))) in
  (st_total, st_present, (st_total - st_present)%Z).

(** ** scripts/upload_embeddings_to_supabase.py *)

(** The loop over the embedding files: each one is upserted under its student
    id; [upsert_ok] says for which ids the call returns.  The result is the
    table and the printed count. *)
Fixpoint upload_embeddings (files : dict ndarray) (upsert_ok : Z -> bool)
    (table : dict ndarray) (count : nat) : dict ndarray * nat :=
  match files with
  | [] => (table, count)
  | (sid, emb) :: r =>
      if upsert_ok sid
      then upload_embeddings r upsert_ok (dict_set table sid emb) (S count)
      else upload_embeddings r upsert_ok table count
  end.

(** ** scripts/migrate_sqlite_to_postgres.py *)

(** [s] without the prefix [p], when it starts with it. *)
Fixpoint strip_prefix (p s : string) : option string :=
  match p, s with
  | EmptyString, _ => Some s
  | String a p', String b s' => if Ascii.eqb a b then strip_prefix p' s' else None
  | String _ _, EmptyString => None
  end.

(** The conversion of the target URL: a leading [postgres://] becomes
    [postgresql+psycopg2://]. *)
Definition convert_target_url (target_url : string) : string :=
  match strip_prefix "postgres://" target_url with
  | Some rest => ("postgresql+psycopg2://" ++ rest)%string
  | None => target_url
  end.

(** The insertion loop of [copy_db] for the rows of one table: the batches
    handed to [conn_tgt.execute], in order, and whether the loop ended
    without an error.  [execute] says for which batch the call returns. *)
Fixpoint copy_rows {A : Type} (execute : list A -> bool) (rows batch : list A)
    (inserted : list (list A)) : list (list A) * bool :=
  match rows with
  | [] =>
      match batch with
      | [] => (inserted, true)
      | _ :: _ =>
          if execute batch then (inserted ++ [batch], true) else (inserted, false)
      end
  | row :: rest =>
      let batch' := batch ++ [row] in
      if Nat.leb 200 (List.length batch') then
        if execute batch' then copy_rows execute rest [] (inserted ++ [batch'])
        else (inserted, false)
      else copy_rows execute rest batch' inserted
  end.

(** The rows of one table copied: nothing is executed for a table without
    rows. *)
Definition copy_table {A : Type} (execute : list A -> bool) (rows : list A)
  : list (list A) * bool :=
  copy_rows execute rows [] [].

(** ** Definitions used to state the properties *)

(** *** The vote *)

Definition verdict_eq_dec (a b : verdict) : {a = b} + {a <> b}.
Proof. decide equality. apply Z.eq_dec. Defined.

(** The count stored for a key, 0 when the key is absent. *)
Fixpoint counter_get (c : list (verdict * nat)) (k : verdict) : nat :=
  match c with
  | [] => 0
  | (k', n) :: r => if verdict_eqb k' k then n else counter_get r k
  end.

(** The frame decoded: [cv2.imdecode] returned an image. *)
Definition decoded (f : Upload) : bool :=
  match f with
  | Bytes (Some _) => true
  | _ => false
  end.

(** The file has bytes that are no image: [cv2.imdecode] returned [None]. *)
Definition no_image (f : Upload) : bool :=
  match f with
  | Bytes None => true
  | _ => false
  end.

(** The file has no bytes: [cv2.imdecode] raises. *)
Definition empty_file (f : Upload) : bool :=
  match f with
  | EmptyFile => true
  | _ => false
  end.

(** *** The timetable *)

(** Every row after a row of the ordered list starts no earlier. *)
Inductive ordered : list StudentTimetable -> Prop :=
| ordered_nil : ordered []
| ordered_cons r l :
    (forall x, In x l -> String.leb (start_time r) (start_time x) = true) ->
    ordered l -> ordered (r :: l).

(** The minute of the day of a clock time, and the clock times that
    [strftime('%H:%M')] writes with two digits each. *)
Definition minute_of_day (t : datetime) : nat := (60 * hour t + minute t)%nat.

Definition clock_time (t : datetime) : Prop := (hour t < 24)%nat /\ (minute t < 60)%nat.

(** The timetable of the example: Monday 09:00-10:00 is subject 1, Monday
    10:00-11:00 is subject 2, both of student 1. *)
Definition monday_db : DB :=
  mkDB [mkStudent 1 "A" None]
       [mkSubject 1 "Subj1"; mkSubject 2 "Subj2"]
       [mkStudentTimetable 1 1 0 "09:00" "10:00";
        mkStudentTimetable 1 2 0 "10:00" "11:00"]
       [].

(** Monday 1 January 2024 at [h]:[m]. *)
Definition monday_at (h m : nat) : datetime := mkDatetime 738886 h m.

(** *** The ledger *)

(** The subject an answer names, if it names one. *)
Definition response_subject (resp : Response) : option Z :=
  match resp with
  | AttendanceMarked _ _ sj _ => Some sj
  | AttendanceAlreadyMarked _ _ sj _ => Some sj
  | _ => None
  end.

Definition already_marked (resp : Response) : bool :=
  match resp with
  | AttendanceAlreadyMarked _ _ _ _ => true
  | _ => false
  end.

(** The number of ledger records of a student for a subject on a date. *)
Definition count_records (db : DB) (student_id subject_id date : Z) : nat :=
  List.length (filter (is_record student_id subject_id date) (attendance db)).

(** *** The matcher *)

(** The threshold that goes with a metric tag. *)
Definition threshold_for (is_cosine : bool) (threshold_nn threshold_fallback : R) : R :=
  if is_cosine then threshold_nn else threshold_fallback.

(** The shapes of the two variants: 512 entries from Facenet512, 64 * 64
    entries from the grey fallback. *)
Definition variant_shape (a : ndarray) : Prop :=
  shape a = 512%nat \/ shape a = 4096%nat.

(** The reference has the shape of the query. *)
Definition same_shape (e : ndarray) (item : Z * ndarray) : bool :=
  Nat.eqb (shape (snd item)) (shape e).

(** What the scan knows after the items [seen]: nothing comparable yet, or a
    nearest comparable reference. *)
Definition scan_inv (e : ndarray) (seen : dict ndarray) (b : Best) : Prop :=
  (b = best0 /\ forall item, In item seen -> distance (snd item) e = None)
  \/
  (exists sid ref d c,
      In (sid, ref) seen /\ distance ref e = Some (d, c) /\
      b = mkBest (Some sid) (Fin d) c /\
      forall item d' c', In item seen -> distance (snd item) e = Some (d', c') ->
                         (d <= d')%R).

(** *** Embeddings, frames and servers of the examples *)

(** [np.zeros(n)] *)
Definition zeros (n : nat) : ndarray := repeat 0%R n.

(** Two fallback-shape embeddings (64 * 64 = 4096 entries) with one pixel of
    value 51 each (51 / 255 = 0.2), at different places. *)
Definition pixel_a : ndarray := (1 / 5)%R :: 0%R :: zeros 4094.
Definition pixel_b : ndarray := 0%R :: (1 / 5)%R :: zeros 4094.

(** The fallback embedding of a black frame with six white pixels
    (255 / 255 = 1). *)
Definition six_white : ndarray :=
  1%R :: 1%R :: 1%R :: 1%R :: 1%R :: 1%R :: zeros 4090.

(** An NN-shape embedding (512 entries) of norm 1. *)
Definition unit_512 : ndarray := 1%R :: zeros 511.

(** Two photos whose fallback embeddings are [pixel_a] and [pixel_b]. *)
Definition photo_a : Image := mkImage Raises pixel_a.
Definition photo_b : Image := mkImage Raises pixel_b.

(** A frame on which DeepFace gives [unit_512], one on which it raises. *)
Definition good_frame : Image := mkImage (Returns (Some unit_512)) pixel_a.
Definition bad_frame : Image := mkImage Raises pixel_b.

(** A server with OpenCV, without Supabase and without any file. *)
Definition bare_world : World :=
  mkWorld true "/srv/app" (fun _ => None) [] true [] false.

(** The same server with the two photos in its upload directory. *)
Definition campus_world : World :=
  mkWorld true "/srv/app"
    (fun p => if String.eqb p "/srv/app/uploads/a.jpg" then Some photo_a
              else if String.eqb p "/srv/app/uploads/b.jpg" then Some photo_b
              else None)
    [] true [] false.

(** A world with other outcomes of [np.save] and of the Supabase calls. *)
Definition with_outcomes (w : World) (disk remote : bool) : World :=
  mkWorld (_HAS_CV2 w) (cwd w) (imread w) (emb_files w) disk (face_embeddings w) remote.

(** A service in NN mode whose cache holds student 1. *)
Definition nn_service : FaceService := mkFaceService true false (Some [(1%Z, unit_512)]).

(** *** The batches of the migration *)

(** Every batch but the last holds exactly [n] rows, and the last holds
    between 1 and [n]. *)
Fixpoint full_but_last {A : Type} (n : nat) (batches : list (list A)) : Prop :=
  match batches with
  | [] => True
  | [b] => (1 <= List.length b <= n)%nat
  | b :: rest => List.length b = n /\ full_but_last n rest
  end.

(** * The embedding on small inputs *)

Example strftime_HM_example : strftime_HM (mkDatetime 738886 9 5) = "09:05"%string.
Proof. reflexivity. Qed.

(** 1 January 2024 is a Monday, 7 January 2024 a Sunday. *)
Example weekday_example :
  weekday (monday_at 9 30) = 0%Z /\ weekday (mkDatetime 738892 0 0) = 6%Z.
Proof. split; reflexivity. Qed.

Example fs_path_example :
  fs_path campus_world "/uploads/a.jpg" = "/srv/app/uploads/a.jpg"%string
  /\ fs_path campus_world "uploads/a.jpg" = "uploads/a.jpg"%string.
Proof. split; reflexivity. Qed.

Example Counter_example :
  Counter [Some 2%Z; None; Some 1%Z; Some 1%Z; None]
  = [(Some 2%Z, 1%nat); (None, 2%nat); (Some 1%Z, 2%nat)]
  /\ most_common_1 (Counter [Some 2%Z; None; Some 1%Z; Some 1%Z; None]) = [(None, 2%nat)].
Proof. split; reflexivity. Qed.

Example dict_set_example :
  dict_set (dict_set (dict_set [] 3 "a"%string) 5 "b"%string) 3 "c"%string
  = [(3%Z, "c"%string); (5%Z, "b"%string)].
Proof. reflexivity. Qed.

(** The rows come back in order of start time, whatever their order in the
    table. *)
Example timetable_rows_example :
  map st_subject_id
    (timetable_rows
       (mkDB [] []
          [mkStudentTimetable 1 2 0 "10:00" "11:00";
           mkStudentTimetable 2 7 0 "08:00" "09:00";
           mkStudentTimetable 1 3 1 "08:00" "09:00";
           mkStudentTimetable 1 1 0 "09:00" "10:00"] [])
       1 0)
  = [1%Z; 2%Z].
Proof. reflexivity. Qed.

(** * The consensus vote *)

Section Consensus.

Lemma verdict_eqb_spec (a b : verdict) : verdict_eqb a b = true <-> a = b.
Proof.
  destruct a as [x|], b as [y|]; simpl; split; intro H;
    try discriminate; try reflexivity.
  - apply Z.eqb_eq in H. now subst.
  - injection H as ->. apply Z.eqb_refl.
Qed.

Lemma counter_get_add (c : list (verdict * nat)) (k k' : verdict) :
  counter_get (counter_add c k) k' =
  (counter_get c k' + if verdict_eq_dec k k' then 1 else 0)%nat.
Proof.
  induction c as [|[k0 n] r IH]; simpl.
  - destruct (verdict_eq_dec k k') as [->|Hne].
    + now replace (verdict_eqb k' k') with true by (symmetry; now apply verdict_eqb_spec).
    + destruct (verdict_eqb k k') eqn:E; [apply verdict_eqb_spec in E; contradiction|reflexivity].
  - destruct (verdict_eqb k0 k) eqn:E0; simpl.
    + apply verdict_eqb_spec in E0. subst k0.
      destruct (verdict_eqb k k') eqn:E1.
      * apply verdict_eqb_spec in E1. subst k'.
        destruct (verdict_eq_dec k k); [lia|contradiction].
      * destruct (verdict_eq_dec k k') as [->|_]; [|lia].
        rewrite (proj2 (verdict_eqb_spec k' k') eq_refl) in E1. discriminate.
    + destruct (verdict_eqb k0 k') eqn:E1.
      * apply verdict_eqb_spec in E1. subst k'.
        destruct (verdict_eq_dec k k0) as [->|_]; [|lia].
        rewrite (proj2 (verdict_eqb_spec k0 k0) eq_refl) in E0. discriminate.
      * apply IH.
Qed.

Lemma counter_get_fold (preds : list verdict) (c : list (verdict * nat)) (k : verdict) :
  counter_get (fold_left counter_add preds c) k =
  (counter_get c k + count_occ verdict_eq_dec preds k)%nat.
Proof.
  revert c. induction preds as [|p preds IH]; intro c; simpl.
  - lia.
  - rewrite IH, counter_get_add.
    destruct (verdict_eq_dec p k); lia.
Qed.

Lemma counter_get_Counter (preds : list verdict) (k : verdict) :
  counter_get (Counter preds) k = count_occ verdict_eq_dec preds k.
Proof. unfold Counter. now rewrite counter_get_fold. Qed.

Lemma counter_add_keys (c : list (verdict * nat)) (k k0 : verdict) :
  In k0 (map fst (counter_add c k)) -> k0 = k \/ In k0 (map fst c).
Proof.
  induction c as [|[k1 n] r IH]; simpl.
  - intros [<-|[]]. now left.
  - destruct (verdict_eqb k1 k); simpl; intros [H|H]; auto.
    destruct (IH H); auto.
Qed.

Lemma counter_add_NoDup (c : list (verdict * nat)) (k : verdict) :
  NoDup (map fst c) -> NoDup (map fst (counter_add c k)).
Proof.
  induction c as [|[k1 n] r IH]; simpl; intro H.
  - constructor; [intros []|constructor].
  - inversion H as [|? ? Hnotin Hnd]; subst.
    destruct (verdict_eqb k1 k) eqn:E; simpl.
    + now constructor.
    + constructor; [|now apply IH].
      intro Hin. apply counter_add_keys in Hin as [->|Hin]; [|contradiction].
      rewrite (proj2 (verdict_eqb_spec k k) eq_refl) in E. discriminate.
Qed.

Lemma Counter_NoDup (preds : list verdict) : NoDup (map fst (Counter preds)).
Proof.
  unfold Counter.
  assert (G : forall c, NoDup (map fst c) ->
                        NoDup (map fst (fold_left counter_add preds c))).
  { induction preds as [|p preds IH]; intros c Hc; simpl; [assumption|].
    apply IH. now apply counter_add_NoDup. }
  apply G. constructor.
Qed.

Lemma counter_get_In (c : list (verdict * nat)) (k : verdict) (n : nat) :
  NoDup (map fst c) -> In (k, n) c -> counter_get c k = n.
Proof.
  induction c as [|[k1 m] r IH]; simpl; intros Hnd Hin; [contradiction|].
  inversion Hnd as [|? ? Hnotin Hnd']; subst.
  destruct Hin as [Heq|Hin].
  - injection Heq as -> ->.
    now rewrite (proj2 (verdict_eqb_spec k k) eq_refl).
  - destruct (verdict_eqb k1 k) eqn:E.
    + apply verdict_eqb_spec in E. subst k1.
      exfalso. apply Hnotin. change k with (fst (k, n)). now apply in_map.
    + now apply IH.
Qed.

Lemma In_counter_get (c : list (verdict * nat)) (k : verdict) :
  (0 < counter_get c k)%nat -> In (k, counter_get c k) c.
Proof.
  induction c as [|[k1 m] r IH]; simpl; intro H; [lia|].
  destruct (verdict_eqb k1 k) eqn:E.
  - apply verdict_eqb_spec in E. subst. now left.
  - right. now apply IH.
Qed.

Lemma max_by_count_In (items : list (verdict * nat)) (best : verdict * nat) :
  In (max_by_count best items) (best :: items).
Proof.
  revert best. induction items as [|x r IH]; intro best; simpl.
  - now left.
  - destruct (IH (if Nat.ltb (snd best) (snd x) then x else best)) as [H|H].
    + rewrite <- H. destruct (Nat.ltb (snd best) (snd x)); auto.
    + auto.
Qed.

Lemma max_by_count_ge (items : list (verdict * nat)) (best x : verdict * nat) :
  In x (best :: items) -> (snd x <= snd (max_by_count best items))%nat.
Proof.
  revert best x. induction items as [|y r IH]; intros best x Hin; simpl.
  - destruct Hin as [->|[]]. lia.
  - assert (Hb : forall z : verdict * nat,
               (snd z <= snd (if Nat.ltb (snd best) (snd y) then y else best))%nat ->
                           (snd z <= snd (max_by_count
                              (if Nat.ltb (snd best) (snd y) then y else best) r))%nat).
    { intros z Hz. etransitivity; [exact Hz|]. apply IH. now left. }
    destruct Hin as [->|[->|Hin]].
    + apply Hb. destruct (Nat.ltb_spec (snd x) (snd y)); simpl; lia.
    + apply Hb. destruct (Nat.ltb_spec (snd best) (snd x)); simpl; lia.
    + apply IH. now right.
Qed.

Lemma count_occ_two (preds : list verdict) (a b : verdict) :
  a <> b ->
  (count_occ verdict_eq_dec preds a + count_occ verdict_eq_dec preds b
   <= List.length preds)%nat.
Proof.
  intro Hne. induction preds as [|p preds IH]; simpl; [lia|].
  destruct (verdict_eq_dec p a), (verdict_eq_dec p b); subst; try lia.
  contradiction.
Qed.

(** What [most_common(1)] returns on a counter of [preds]. *)
Lemma most_common_1_spec (preds : list verdict) :
  preds <> [] ->
  exists k n,
    most_common_1 (Counter preds) = [(k, n)] /\
    n = count_occ verdict_eq_dec preds k /\
    forall k', (count_occ verdict_eq_dec preds k' <= n)%nat.
Proof.
  intro Hne.
  destruct (Counter preds) as [|x r] eqn:EC.
  - destruct preds as [|p preds]; [contradiction|].
    pose proof (counter_get_Counter (p :: preds) p) as H.
    rewrite EC in H. simpl in H.
    destruct (verdict_eq_dec p p); [lia|contradiction].
  - simpl. destruct (max_by_count x r) as [k n] eqn:EM.
    exists k, n. split; [reflexivity|].
    pose proof (max_by_count_In r x) as Hin. rewrite EM in Hin.
    pose proof (Counter_NoDup preds) as Hnd. rewrite EC in Hnd.
    split.
    + rewrite <- counter_get_Counter, EC. symmetry. now apply counter_get_In.
    + intro k'.
      destruct (Nat.eq_dec (count_occ verdict_eq_dec preds k') 0) as [->|Hpos]; [lia|].
      rewrite <- counter_get_Counter, EC in Hpos |- *.
      pose proof (In_counter_get (x :: r) k' ltac:(lia)) as Hin'.
      apply (max_by_count_ge r x) in Hin'. now rewrite EM in Hin'.
Qed.

End Consensus.

(** C1. The vote accepts student [a] exactly when [Some a] occurs in strictly
    more than [len(preds) // 2] of the verdicts: a strict majority of a real
    identity.  [A, A, B] accepts A; [A, B, None] and [A, A, B, B] are
    rejected; the empty list is answered at once with no student. *)
Theorem majority_vote_strict_majority (preds : list verdict) (a : Z) :
  (majority_vote preds = Majority a <->
   (List.length preds / 2 < count_occ verdict_eq_dec preds (Some a))%nat)
  /\ majority_vote preds <> IndexError
  /\ majority_vote [Some 1%Z; Some 1%Z; Some 2%Z] = Majority 1
  /\ majority_vote [Some 1%Z; Some 2%Z; None] = Inconsistent
  /\ majority_vote [Some 1%Z; Some 1%Z; Some 2%Z; Some 2%Z] = Inconsistent
  /\ majority_vote [] = NoValidFrames.
Proof.
  assert (Hex : majority_vote [Some 1%Z; Some 1%Z; Some 2%Z] = Majority 1
          /\ majority_vote [Some 1%Z; Some 2%Z; None] = Inconsistent
          /\ majority_vote [Some 1%Z; Some 1%Z; Some 2%Z; Some 2%Z] = Inconsistent
          /\ majority_vote [] = NoValidFrames)
    by (repeat split; reflexivity).
  destruct preds as [|p preds].
  { simpl. repeat split; try apply Hex; try discriminate. lia. }
  destruct (most_common_1_spec (p :: preds) ltac:(discriminate))
    as (k & n & Hmc & Hn & Hmax).
  pose proof (Nat.div_mod_eq (List.length (p :: preds)) 2) as Hdiv.
  pose proof (Nat.mod_upper_bound (List.length (p :: preds)) 2 ltac:(lia)) as Hmod.
  unfold majority_vote. rewrite Hmc.
  split; [|split; [|exact Hex]].
  - destruct k as [s|].
    + destruct (Nat.leb_spec n (List.length (p :: preds) / 2)) as [Hle|Hgt].
      * split; [discriminate|]. intro H. specialize (Hmax (Some a)). lia.
      * split.
        -- intro H. injection H as ->. lia.
        -- intro H. destruct (Z.eq_dec s a) as [->|Hne]; [reflexivity|].
           assert (Hd : Some a <> Some s) by congruence.
           pose proof (count_occ_two (p :: preds) (Some a) (Some s) Hd).
           specialize (Hmax (Some a)). lia.
    + split; [discriminate|]. intro H.
      assert (Hd : Some a <> None) by discriminate.
      pose proof (count_occ_two (p :: preds) (Some a) None Hd).
      specialize (Hmax (Some a)). lia.
  - destruct k as [s|]; [|discriminate].
    destruct (Nat.leb n (List.length (p :: preds) / 2)); discriminate.
Qed.

(** * The schedule lookup *)

Section Schedule.

Lemma string_leb_refl (a : string) : String.leb a a = true.
Proof. destruct (String.leb_total a a); assumption. Qed.

Lemma string_leb_trans (a b c : string) :
  String.leb a b = true -> String.leb b c = true -> String.leb a c = true.
Proof.
  unfold String.leb. revert b c.
  induction a as [|x a IH]; intros [|y b] [|z c]; simpl; try easy.
  unfold Ascii.compare.
  destruct (N.compare_spec (N_of_ascii x) (N_of_ascii y)) as [Hxy|Hxy|Hxy];
    destruct (N.compare_spec (N_of_ascii y) (N_of_ascii z)) as [Hyz|Hyz|Hyz];
    destruct (N.compare_spec (N_of_ascii x) (N_of_ascii z)) as [Hxz|Hxz|Hxz];
    try easy; try lia.
  apply IH.
Qed.

Lemma insert_by_start_In (r x : StudentTimetable) (l : list StudentTimetable) :
  In x (insert_by_start r l) <-> x = r \/ In x l.
Proof.
  induction l as [|y l IH]; simpl.
  - intuition.
  - destruct (String.leb (start_time r) (start_time y)); simpl; [intuition|].
    rewrite IH. intuition.
Qed.

Lemma order_by_start_time_In (x : StudentTimetable) (l : list StudentTimetable) :
  In x (order_by_start_time l) <-> In x l.
Proof.
  induction l as [|y l IH]; simpl; [reflexivity|].
  rewrite insert_by_start_In, IH. intuition.
Qed.

Lemma insert_by_start_ordered (r : StudentTimetable) (l : list StudentTimetable) :
  ordered l -> ordered (insert_by_start r l).
Proof.
  induction 1 as [|y l Hy Hl IH]; simpl.
  - constructor; [intros x []|constructor].
  - destruct (String.leb (start_time r) (start_time y)) eqn:E.
    + constructor; [|now constructor].
      intros x [<-|Hx]; [assumption|].
      eapply string_leb_trans; [exact E|now apply Hy].
    + constructor; [|assumption].
      intros x Hx. apply insert_by_start_In in Hx as [->|Hx]; [|now apply Hy].
      destruct (String.leb_total (start_time y) (start_time r)) as [H|H];
        [assumption|congruence].
Qed.

Lemma order_by_start_time_ordered (l : list StudentTimetable) :
  ordered (order_by_start_time l).
Proof.
  induction l; simpl; [constructor|now apply insert_by_start_ordered].
Qed.

Lemma current_slot_Some (rows : list StudentTimetable) (now_str : string)
    (r : StudentTimetable) :
  ordered rows -> current_slot rows now_str = Some r ->
  In r rows /\ in_slot now_str r = true /\
  forall x, In x rows -> in_slot now_str x = true ->
            String.leb (start_time r) (start_time x) = true.
Proof.
  induction 1 as [|y l Hy Hl IH]; simpl; [discriminate|].
  destruct (in_slot now_str y) eqn:E.
  - intro H. injection H as <-. repeat split; auto.
    intros x [<-|Hx] _; [apply string_leb_refl|now apply Hy].
  - intro H. destruct (IH H) as (Hin & Hs & Hmin). repeat split; auto.
    intros x [<-|Hx] Hx'; [congruence|now apply Hmin].
Qed.

Lemma current_slot_None (rows : list StudentTimetable) (now_str : string) :
  current_slot rows now_str = None <->
  forall x, In x rows -> in_slot now_str x = false.
Proof.
  induction rows as [|y l IH]; simpl.
  - split; [intros _ x []|reflexivity].
  - destruct (in_slot now_str y) eqn:E.
    + split; [discriminate|]. intro H. specialize (H y (or_introl eq_refl)). congruence.
    + rewrite IH. split.
      * intros H x [<-|Hx]; auto.
      * intros H x Hx. apply H. now right.
Qed.

Lemma timetable_rows_In (db : DB) (student_id wd : Z) (x : StudentTimetable) :
  In x (timetable_rows db student_id wd) <->
  In x (student_timetables db) /\ st_student_id x = student_id /\ st_weekday x = wd.
Proof.
  unfold timetable_rows.
  rewrite order_by_start_time_In, filter_In, andb_true_iff, !Z.eqb_eq. reflexivity.
Qed.

Lemma digit_compare (a b : nat) :
  (a < 10)%nat -> (b < 10)%nat -> Ascii.compare (digit a) (digit b) = Nat.compare a b.
Proof.
  intros Ha Hb.
  do 10 (destruct a as [|a];
         [do 10 (destruct b as [|b]; [reflexivity|]); lia|]).
  lia.
Qed.

(** On clock times the order of the strings is the order of the times. *)
Lemma strftime_HM_compare (t1 t2 : datetime) :
  clock_time t1 -> clock_time t2 ->
  String.compare (strftime_HM t1) (strftime_HM t2) =
  Nat.compare (minute_of_day t1) (minute_of_day t2).
Proof.
  intros [Hh1 Hm1] [Hh2 Hm2]. unfold strftime_HM, two_digits, minute_of_day.
  pose proof (Nat.div_mod_eq (hour t1) 10) as E1.
  pose proof (Nat.div_mod_eq (hour t2) 10) as E2.
  pose proof (Nat.div_mod_eq (minute t1) 10) as E3.
  pose proof (Nat.div_mod_eq (minute t2) 10) as E4.
  pose proof (Nat.mod_upper_bound (hour t1) 10 ltac:(lia)) as B1.
  pose proof (Nat.mod_upper_bound (hour t2) 10 ltac:(lia)) as B2.
  pose proof (Nat.mod_upper_bound (minute t1) 10 ltac:(lia)) as B3.
  pose proof (Nat.mod_upper_bound (minute t2) 10 ltac:(lia)) as B4.
  assert (D1 : (hour t1 / 10 < 10)%nat) by (apply Nat.Div0.div_lt_upper_bound; lia).
  assert (D2 : (hour t2 / 10 < 10)%nat) by (apply Nat.Div0.div_lt_upper_bound; lia).
  assert (D3 : (minute t1 / 10 < 10)%nat) by (apply Nat.Div0.div_lt_upper_bound; lia).
  assert (D4 : (minute t2 / 10 < 10)%nat) by (apply Nat.Div0.div_lt_upper_bound; lia).
  cbn [append String.compare].
  rewrite !digit_compare by assumption.
  change (Ascii.compare ":" ":") with Eq. cbv iota.
  symmetry.
  destruct (Nat.compare_spec (hour t1 / 10) (hour t2 / 10));
    [destruct (Nat.compare_spec (hour t1 mod 10) (hour t2 mod 10));
     [destruct (Nat.compare_spec (minute t1 / 10) (minute t2 / 10));
      [destruct (Nat.compare_spec (minute t1 mod 10) (minute t2 mod 10))| |]| |]| |];
    first [apply Nat.compare_eq_iff | apply Nat.compare_lt_iff | apply Nat.compare_gt_iff];
    lia.
Qed.

Lemma strftime_HM_leb (t1 t2 : datetime) :
  clock_time t1 -> clock_time t2 ->
  String.leb (strftime_HM t1) (strftime_HM t2) =
  Nat.leb (minute_of_day t1) (minute_of_day t2).
Proof.
  intros H1 H2. unfold String.leb. rewrite (strftime_HM_compare t1 t2 H1 H2).
  destruct (Nat.compare_spec (minute_of_day t1) (minute_of_day t2));
    destruct (Nat.leb_spec (minute_of_day t1) (minute_of_day t2)); try reflexivity; lia.
Qed.

End Schedule.

(** C6. The lookup keeps the rows of the student and the weekday and returns
    the first row, in order of start time, whose interval holds the clock
    string at both ends included; it returns no row exactly when no such row
    holds it.  For rows written as HH:MM the strings compare as the clock
    times do.  On the Monday timetable 09:30 gives subject 1, 10:00 gives a
    row whose interval holds 10:00, and 12:00 gives no row. *)
Theorem resolve_first_slot_in_start_order (db : DB) (student_id : Z) (now : datetime) :
  (forall r, resolve db student_id now = Some r ->
     In r (student_timetables db) /\
     st_student_id r = student_id /\ st_weekday r = weekday now /\
     String.leb (start_time r) (strftime_HM now) = true /\
     String.leb (strftime_HM now) (end_time r) = true /\
     forall x, In x (student_timetables db) ->
               st_student_id x = student_id -> st_weekday x = weekday now ->
               in_slot (strftime_HM now) x = true ->
               String.leb (start_time r) (start_time x) = true)
  /\ (resolve db student_id now = None <->
      forall x, In x (student_timetables db) ->
                st_student_id x = student_id -> st_weekday x = weekday now ->
                in_slot (strftime_HM now) x = false)
  /\ (forall r ts te,
        clock_time now /\ clock_time ts /\ clock_time te /\
        start_time r = strftime_HM ts /\ end_time r = strftime_HM te ->
        (in_slot (strftime_HM now) r = true <->
         (minute_of_day ts <= minute_of_day now <= minute_of_day te)%nat))
  /\ option_map st_subject_id (resolve monday_db 1 (monday_at 9 30)) = Some 1%Z
  /\ (exists r, resolve monday_db 1 (monday_at 10 0) = Some r /\
                in_slot "10:00" r = true)
  /\ resolve monday_db 1 (monday_at 12 0) = None.
Proof.
  split; [|split; [|split; [|split; [|split]]]].
  - intros r H. unfold resolve in H.
    apply current_slot_Some in H; [|apply order_by_start_time_ordered].
    destruct H as (Hin & Hs & Hmin).
    apply timetable_rows_In in Hin as (Hin & Hsid & Hwd).
    pose proof Hs as Hs'. unfold in_slot in Hs'. apply andb_true_iff in Hs' as [H1 H2].
    repeat split; auto.
    intros x Hx Hxs Hxw Hxin. apply Hmin; [|assumption].
    apply timetable_rows_In. auto.
  - unfold resolve. rewrite current_slot_None. split.
    + intros H x Hx Hxs Hxw. apply H. apply timetable_rows_In. auto.
    + intros H x Hx. apply timetable_rows_In in Hx as (Hx & Hxs & Hxw). auto.
  - intros r ts te (Hn & Hs & He & Est & Eet). unfold in_slot.
    rewrite Est, Eet, andb_true_iff, !strftime_HM_leb, !Nat.leb_le by assumption.
    reflexivity.
  - reflexivity.
  - eexists. split; reflexivity.
  - reflexivity.
Qed.

(** * The attendance ledger *)

Section Ledger.

Lemma existing_count (db : DB) (student_id subject_id : Z) (now : datetime) :
  existing db student_id subject_id now = None <->
  count_records db student_id subject_id (toordinal now) = 0%nat.
Proof.
  unfold existing, count_records.
  induction (attendance db) as [|a l IH]; simpl; [tauto|].
  destruct (is_record student_id subject_id (toordinal now) a); simpl; [|exact IH].
  split; discriminate.
Qed.

Lemma count_records_add (db : DB) (a : Attendance) (student_id subject_id date : Z) :
  count_records (add_attendance db a) student_id subject_id date =
  (count_records db student_id subject_id date +
   if is_record student_id subject_id date a then 1 else 0)%nat.
Proof.
  unfold count_records, add_attendance. simpl.
  rewrite filter_app, length_app. simpl.
  destruct (is_record student_id subject_id date a); reflexivity.
Qed.

Lemma is_record_new (student_id subject_id : Z) (cls : option Z) (now : datetime) :
  is_record student_id subject_id (toordinal now)
    (mkAttendance student_id (Some subject_id) cls now true "face") = true.
Proof. unfold is_record. simpl. now rewrite !Z.eqb_refl. Qed.

(** The two ways in which the flow names a subject. *)
Lemma resolve_and_decide_subject (db : DB) (student_id subject_id : Z) (now : datetime) :
  response_subject (snd (resolve_and_decide db student_id now)) = Some subject_id ->
  exists st subj,
    (existing db student_id subject_id now = None /\
     resolve_and_decide db student_id now =
       (add_attendance db
          (mkAttendance student_id (Some subject_id) (student_class_id st) now true "face"),
        AttendanceMarked student_id (student_name st) subject_id (subject_name subj)))
    \/
    (existing db student_id subject_id now <> None /\
     resolve_and_decide db student_id now =
       (db, AttendanceAlreadyMarked student_id (student_name st) subject_id
              (subject_name subj))).
Proof.
  unfold resolve_and_decide.
  destruct (get_student db student_id) as [st|]; [|discriminate].
  destruct (resolve db student_id now) as [slot|]; simpl; [|discriminate].
  destruct (get_subject db (st_subject_id slot)) as [subj|]; [|discriminate].
  destruct (Z.eqb (st_subject_id slot) 0); [discriminate|].
  destruct (existing db student_id (st_subject_id slot) now) as [a|] eqn:E; simpl;
    intro H; injection H as <-; exists st, subj.
  - right. rewrite E. split; [discriminate|reflexivity].
  - left. rewrite E. split; reflexivity.
Qed.

Lemma existing_same_date (db : DB) (student_id subject_id : Z) (now1 now2 : datetime) :
  toordinal now1 = toordinal now2 ->
  existing db student_id subject_id now1 = existing db student_id subject_id now2.
Proof. unfold existing. now intros ->. Qed.

End Ledger.

(** C7. When the ledger already holds a record for (student, subject, date),
    the flow answers "attendance already marked" and leaves the ledger as it
    is.  Two runs for the same student, subject and date: the second answers
    "attendance already marked" and changes nothing, and a ledger that held
    at most one record for the triple holds exactly one afterwards. *)
Theorem attendance_recorded_once
    (db : DB) (student_id subject_id : Z) (now1 now2 : datetime) :
  toordinal now1 = toordinal now2 ->
  response_subject (snd (resolve_and_decide db student_id now1)) = Some subject_id ->
  response_subject
    (snd (resolve_and_decide (fst (resolve_and_decide db student_id now1)) student_id now2))
    = Some subject_id ->
  let run1 := resolve_and_decide db student_id now1 in
  let run2 := resolve_and_decide (fst run1) student_id now2 in
  (existing db student_id subject_id now1 <> None ->
     fst run1 = db /\ already_marked (snd run1) = true)
  /\ fst run2 = fst run1
  /\ already_marked (snd run2) = true
  /\ ((count_records db student_id subject_id (toordinal now1) <= 1)%nat ->
      count_records (fst run2) student_id subject_id (toordinal now1) = 1%nat).
Proof.
  intros Hdate H1 H2 run1 run2.
  destruct (resolve_and_decide_subject _ _ _ _ H1) as (st1 & sb1 & C1).
  destruct (resolve_and_decide_subject _ _ _ _ H2) as (st2 & sb2 & C2).
  fold run1 in C1, C2. fold run2 in C2.
  assert (Hex1 : existing (fst run1) student_id subject_id now2 <> None).
  { destruct C1 as [[E1 R1]|[E1 R1]]; rewrite R1; simpl.
    - intro Hn. apply existing_count in Hn.
      rewrite count_records_add, <- Hdate, is_record_new in Hn. lia.
    - now rewrite <- (existing_same_date db _ _ now1 now2 Hdate). }
  destruct C2 as [[E2 R2]|[E2 R2]]; [contradiction|].
  rewrite R2. simpl. split; [|split; [reflexivity|split; [reflexivity|]]].
  - intro Hex. destruct C1 as [[E1 R1]|[E1 R1]]; [contradiction|].
    rewrite R1. simpl. split; reflexivity.
  - intro Hle. destruct C1 as [[E1 R1]|[E1 R1]]; rewrite R1; simpl.
    + rewrite count_records_add, is_record_new.
      apply existing_count in E1. lia.
    + assert (count_records db student_id subject_id (toordinal now1) <> 0%nat).
      { intro Hz. apply existing_count in Hz. contradiction. }
      lia.
Qed.

Lemma attendance_recorded_once_witness :
  let db1 := fst (resolve_and_decide monday_db 1 (monday_at 9 30)) in
  snd (resolve_and_decide monday_db 1 (monday_at 9 30)) = AttendanceMarked 1 "A" 1 "Subj1"
  /\ resolve_and_decide db1 1 (monday_at 9 45) = (db1, AttendanceAlreadyMarked 1 "A" 1 "Subj1")
  /\ count_records db1 1 1 738886 = 1%nat.
Proof.
  split; [reflexivity|split; [reflexivity|]].
  refine (proj2 (proj2 (proj2
    (attendance_recorded_once monday_db 1 1 (monday_at 9 30) (monday_at 9 45)
       eq_refl eq_refl eq_refl))) _).
  vm_compute. lia.
Defined.

(** * The matcher *)

Section Matcher.

Open Scope R_scope.

Lemma scan_step_inv (e : ndarray) (seen : dict ndarray) (b : Best) (item : Z * ndarray) :
  scan_inv e seen b -> scan_inv e (seen ++ [item]) (scan_step e b item).
Proof.
  destruct item as [sid ref].
  intros [[-> Hnone]|(sid0 & ref0 & d0 & c0 & Hin & Hd & -> & Hmin)];
    unfold scan_step; simpl; destruct (distance ref e) as [[d c]|] eqn:E.
  - right. exists sid, ref, d, c. repeat split; auto.
    + apply in_or_app. right. now left.
    + intros it d' c' Hit Hd'. apply in_app_or in Hit as [Hit|[<-|[]]].
      * rewrite (Hnone it Hit) in Hd'. discriminate.
      * simpl in Hd'. rewrite E in Hd'. injection Hd' as <- <-. lra.
  - left. split; [reflexivity|].
    intros it Hit. apply in_app_or in Hit as [Hit|[<-|[]]]; auto.
  - destruct (Rlt_dec d d0) as [Hlt|Hge].
    + right. exists sid, ref, d, c. repeat split; auto.
      * apply in_or_app. right. now left.
      * intros it d' c' Hit Hd'. apply in_app_or in Hit as [Hit|[<-|[]]].
        -- specialize (Hmin it d' c' Hit Hd'). lra.
        -- simpl in Hd'. rewrite E in Hd'. injection Hd' as <- <-. lra.
    + right. exists sid0, ref0, d0, c0. repeat split; auto.
      * apply in_or_app. now left.
      * intros it d' c' Hit Hd'. apply in_app_or in Hit as [Hit|[<-|[]]].
        -- now apply (Hmin it d' c').
        -- simpl in Hd'. rewrite E in Hd'. injection Hd' as <- <-. lra.
  - right. exists sid0, ref0, d0, c0. repeat split; auto.
    + apply in_or_app. now left.
    + intros it d' c' Hit Hd'. apply in_app_or in Hit as [Hit|[<-|[]]].
      * now apply (Hmin it d' c').
      * simpl in Hd'. rewrite E in Hd'. discriminate.
Qed.

Lemma fold_scan_inv (e : ndarray) (l seen : dict ndarray) (b : Best) :
  scan_inv e seen b -> scan_inv e (seen ++ l) (fold_left (scan_step e) l b).
Proof.
  revert seen b. induction l as [|item l IH]; intros seen b H; simpl.
  - now rewrite app_nil_r.
  - replace (seen ++ item :: l) with ((seen ++ [item]) ++ l)
      by (now rewrite <- app_assoc).
    apply IH. now apply scan_step_inv.
Qed.

(** The scan ends on a nearest comparable reference, or on nothing when no
    reference is comparable. *)
Lemma scan_spec (cache : dict ndarray) (e : ndarray) : scan_inv e cache (scan cache e).
Proof.
  unfold scan. apply (fold_scan_inv e cache [] best0).
  left. split; [reflexivity|intros it []].
Qed.

Lemma gt_score_Fin (d t : R) : gt_score (Fin d) t = false <-> d <= t.
Proof.
  simpl. destruct (Rgt_dec d t) as [H|H]; split; intro; try discriminate;
    try reflexivity; lra.
Qed.

(** The matcher in terms of the end of the scan. *)
Lemma match_embedding_Some (cache : dict ndarray) (e : ndarray) (tnn tfb : R) (sid : Z) :
  match_embedding cache e tnn tfb = Some sid <->
  exists d c, scan cache e = mkBest (Some sid) (Fin d) c /\ d <= threshold_for c tnn tfb.
Proof.
  unfold match_embedding.
  destruct (scan_spec cache e) as [[-> _]|(s0 & r0 & d0 & c0 & _ & _ & -> & _)]; simpl.
  - split; [discriminate|]. intros (d & c & H & _). discriminate.
  - pose proof (gt_score_Fin d0 tnn) as Gn. pose proof (gt_score_Fin d0 tfb) as Gf.
    simpl in Gn, Gf.
    destruct c0; simpl.
    + destruct (Rgt_dec d0 tnn) as [H|H].
      * split; [discriminate|]. intros (d & c & Heq & Hle).
        injection Heq as <- <- <-. simpl in Hle. lra.
      * split.
        -- intro Heq. injection Heq as <-. exists d0, true. split; [reflexivity|].
           simpl. lra.
        -- intros (d & c & Heq & _). now injection Heq as <- _ _.
    + destruct (Rgt_dec d0 tfb) as [H|H].
      * split; [discriminate|]. intros (d & c & Heq & Hle).
        injection Heq as <- <- <-. simpl in Hle. lra.
      * split.
        -- intro Heq. injection Heq as <-. exists d0, false. split; [reflexivity|].
           simpl. lra.
        -- intros (d & c & Heq & _). now injection Heq as <- _ _.
Qed.

Lemma length_zeros (n : nat) : List.length (zeros n) = n.
Proof. apply repeat_length. Qed.

Lemma dot_zeros_l (n : nat) (a : ndarray) : dot (zeros n) a = 0.
Proof.
  revert a. induction n as [|n IH]; intros [|y a]; simpl; try reflexivity.
  unfold zeros in IH. rewrite IH. lra.
Qed.

Lemma dot_zeros_r (n : nat) (a : ndarray) : dot a (zeros n) = 0.
Proof.
  revert a. induction n as [|n IH]; intros [|y a]; simpl; try reflexivity.
  unfold zeros in IH. rewrite IH. lra.
Qed.

Lemma sub_same_zeros (n : nat) : sub_same (zeros n) (zeros n) = zeros n.
Proof.
  induction n as [|n IH]; simpl; [reflexivity|].
  unfold zeros in IH. rewrite IH.
  replace (0 - 0) with 0 by lra. reflexivity.
Qed.

Lemma dot_self_nonneg (a : ndarray) : 0 <= dot a a.
Proof. induction a as [|x a IH]; simpl; [lra|nra]. Qed.

Lemma norm_sqr (a : ndarray) : norm a * norm a = dot a a.
Proof. unfold norm. apply sqrt_sqrt, dot_self_nonneg. Qed.

Lemma norm_nonneg (a : ndarray) : 0 <= norm a.
Proof. unfold norm. apply sqrt_pos. Qed.

Lemma EPS_pos : 0 < EPS.
Proof. unfold EPS. lra. Qed.

Lemma distance_same_shape (ref e : ndarray) :
  shape ref = shape e ->
  distance ref e = Some (1 - dot ref e / (norm ref * norm e + EPS), true).
Proof. unfold distance. intros ->. now rewrite Nat.eqb_refl. Qed.

(** A vector against itself: the [1e-8] of the denominator keeps the
    distance above 0. *)
Lemma distance_self (E : ndarray) :
  distance E E = Some (EPS / (dot E E + EPS), true).
Proof.
  rewrite distance_same_shape by reflexivity. rewrite norm_sqr.
  pose proof (dot_self_nonneg E). pose proof EPS_pos.
  do 2 f_equal. field. lra.
Qed.

Lemma self_distance_bounds (E : ndarray) : 0 < EPS / (dot E E + EPS) <= 1.
Proof.
  pose proof (dot_self_nonneg E). pose proof EPS_pos.
  split.
  - apply Rdiv_lt_0_compat; lra.
  - apply Rmult_le_reg_r with (dot E E + EPS); [lra|].
    unfold Rdiv. rewrite Rmult_assoc, Rinv_l by lra. lra.
Qed.

(** The shapes on which [distance] is defined. *)
Lemma distance_Some_shape (ref e : ndarray) (d : R) (c : bool) :
  distance ref e = Some (d, c) ->
  (c = true /\ shape ref = shape e) \/
  (c = false /\ shape ref <> shape e /\ (shape ref = 1%nat \/ shape e = 1%nat)).
Proof.
  unfold distance, sub, shape.
  destruct (Nat.eqb_spec (List.length ref) (List.length e)) as [Heq|Hne].
  - intro H. injection H as _ <-. now left.
  - destruct ref as [|x [|x' ref]]; simpl.
    + destruct e as [|y [|y' e]]; simpl; try discriminate.
      intro H. injection H as _ <-. right. simpl in Hne. auto.
    + intro H. injection H as _ <-. right. simpl in Hne. auto.
    + destruct e as [|y [|y' e]]; simpl; try discriminate.
      intro H. injection H as _ <-. right. simpl in Hne. auto.
Qed.

Lemma distance_no_broadcast (ref e : ndarray) :
  shape ref <> shape e -> shape ref <> 1%nat -> shape e <> 1%nat ->
  distance ref e = None.
Proof.
  intros Hne Hr He.
  destruct (distance ref e) as [[d c]|] eqn:E; [|reflexivity].
  apply distance_Some_shape in E as [[_ H]|(_ & _ & [H|H])]; contradiction.
Qed.

(** The matcher on a store of one reference. *)
Lemma match_single (sid : Z) (ref e : ndarray) (tnn tfb d : R) (c : bool) :
  distance ref e = Some (d, c) ->
  match_embedding [(sid, ref)] e tnn tfb =
  if Rgt_dec d (threshold_for c tnn tfb) then None else Some sid.
Proof.
  intro H. unfold match_embedding, scan, scan_step. simpl. rewrite H. simpl.
  destruct c; simpl; [destruct (Rgt_dec d tnn)|destruct (Rgt_dec d tfb)]; reflexivity.
Qed.

Lemma distance_zeros (n : nat) : distance (zeros n) (zeros n) = Some (1, true).
Proof.
  rewrite distance_self, dot_zeros_l. pose proof EPS_pos.
  do 2 f_equal. field. lra.
Qed.

Lemma distance_pixels : distance pixel_a pixel_b = Some (1, true).
Proof.
  rewrite distance_same_shape by reflexivity.
  assert (Hd : dot pixel_a pixel_b = 0).
  { unfold pixel_a, pixel_b. cbn [dot]. rewrite dot_zeros_l. lra. }
  rewrite Hd. pose proof (norm_nonneg pixel_a). pose proof (norm_nonneg pixel_b).
  pose proof EPS_pos. do 2 f_equal. field. nra.
Qed.

Lemma norm_pixels_diff : norm (sub_same pixel_a pixel_b) <= THRESHOLD_FALLBACK.
Proof.
  unfold pixel_a, pixel_b, norm, THRESHOLD_FALLBACK. cbn [sub_same].
  rewrite sub_same_zeros. cbn [dot]. rewrite dot_zeros_l.
  apply Rsqr_incr_0_var; [|lra].
  rewrite Rsqr_sqrt by lra. unfold Rsqr. lra.
Qed.

Lemma self_match_single (X : Z) (E : ndarray) (tnn tfb : R) :
  EPS / (dot E E + EPS) <= tnn ->
  match_embedding [(X, E)] E tnn tfb = Some X.
Proof.
  intro Hn. rewrite (match_single _ _ _ _ _ _ _ (distance_self E)). simpl.
  destruct (Rgt_dec (EPS / (dot E E + EPS)) tnn) as [H|_]; [lra|reflexivity].
Qed.

Lemma self_distance_default (E : ndarray) :
  2 * EPS <= dot E E -> EPS / (dot E E + EPS) <= THRESHOLD_NN.
Proof.
  intro H. pose proof EPS_pos.
  apply Rmult_le_reg_r with (dot E E + EPS); [lra|].
  unfold Rdiv. rewrite Rmult_assoc, Rinv_l by lra.
  unfold THRESHOLD_NN. lra.
Qed.

Lemma self_distance_unit_512 : EPS / (dot unit_512 unit_512 + EPS) <= THRESHOLD_NN.
Proof.
  unfold unit_512, THRESHOLD_NN. cbn [dot]. rewrite dot_zeros_l. unfold EPS. lra.
Qed.

Lemma self_distance_pixel_a : EPS / (dot pixel_a pixel_a + EPS) <= THRESHOLD_NN.
Proof.
  unfold pixel_a, THRESHOLD_NN. cbn [dot]. rewrite dot_zeros_l. unfold EPS. lra.
Qed.

Lemma self_distance_pixel_b : EPS / (dot pixel_b pixel_b + EPS) <= THRESHOLD_NN.
Proof.
  unfold pixel_b, THRESHOLD_NN. cbn [dot]. rewrite dot_zeros_l. unfold EPS. lra.
Qed.

Lemma self_distance_six_white : 0 < EPS / (dot six_white six_white + EPS).
Proof. apply self_distance_bounds. Qed.

(** References that cannot be compared with the query do not move the scan. *)
Lemma fold_scan_filter (e : ndarray) (keep : Z * ndarray -> bool) (l : dict ndarray) :
  (forall item, In item l -> keep item = false -> distance (snd item) e = None) ->
  forall b, fold_left (scan_step e) l b = fold_left (scan_step e) (filter keep l) b.
Proof.
  induction l as [|item l IH]; intros H b; cbn [filter fold_left]; [reflexivity|].
  destruct (keep item) eqn:K; cbn [fold_left].
  - apply IH. intros it Hit. apply H. now right.
  - unfold scan_step at 2. rewrite (H item (or_introl eq_refl) K).
    apply IH. intros it Hit. apply H. now right.
Qed.

Lemma variant_no_broadcast (ref e : ndarray) :
  variant_shape ref -> variant_shape e -> shape ref <> shape e ->
  distance ref e = None.
Proof.
  unfold variant_shape. intros Hr He Hne.
  apply distance_no_broadcast; [assumption|lia|lia].
Qed.

End Matcher.

(** C5. The matcher returns a student only for a nearest comparable reference
    whose distance is at most the threshold of its metric; when that distance
    is above the threshold it returns nothing although the candidate exists;
    on an empty reference set it returns nothing.  The defaults are 0.35 for
    the cosine metric and 0.6 for L2. *)
Theorem match_embedding_within_threshold
    (cache : dict ndarray) (e : ndarray) (tnn tfb : R) :
  (forall sid, match_embedding cache e tnn tfb = Some sid ->
     exists ref d c,
       In (sid, ref) cache /\ distance ref e = Some (d, c) /\
       (forall item d' c', In item cache -> distance (snd item) e = Some (d', c') ->
                           (d <= d')%R) /\
       (d <= threshold_for c tnn tfb)%R)
  /\ (forall sid d c, scan cache e = mkBest (Some sid) (Fin d) c ->
        (threshold_for c tnn tfb < d)%R -> match_embedding cache e tnn tfb = None)
  /\ match_embedding [] e tnn tfb = None
  /\ (forall w s img, load_cache w s = [] ->
        snd (predict_student_id w s img tnn tfb) = None)
  /\ (forall w s img, predict_student_id_default w s img =
                      predict_student_id w s img (35 / 100)%R (6 / 10)%R).
Proof.
  split; [|split; [|split; [|split]]].
  - intros sid H. apply match_embedding_Some in H as (d & c & Hscan & Hle).
    destruct (scan_spec cache e) as [[Hb _]|(s0 & r0 & d0 & c0 & Hin & Hd & Hb & Hmin)];
      rewrite Hb in Hscan; [discriminate|].
    injection Hscan as <- <- <-. exists r0, d0, c0. auto.
  - intros sid d c Hscan Hlt.
    destruct (match_embedding cache e tnn tfb) as [sid'|] eqn:E; [|reflexivity].
    apply match_embedding_Some in E as (d' & c' & Hscan' & Hle).
    rewrite Hscan in Hscan'. injection Hscan' as _ <- <-. lra.
  - reflexivity.
  - intros w s img Hc. unfold predict_student_id.
    destruct (_compute_embedding w s img); [|reflexivity]. now rewrite Hc.
  - reflexivity.
Qed.

(** A nearest candidate beyond the threshold: the only reference is at cosine
    distance 1 from the query, above 0.35. *)
Example far_candidate_rejected :
  distance pixel_a pixel_b = Some (1%R, true) /\
  match_embedding [(1%Z, pixel_a)] pixel_b THRESHOLD_NN THRESHOLD_FALLBACK = None.
Proof.
  split; [apply distance_pixels|].
  rewrite (match_single _ _ _ _ _ _ _ distance_pixels).
  unfold threshold_for, THRESHOLD_NN.
  destruct (Rgt_dec 1 (35 / 100)) as [_|H]; [reflexivity|exfalso; lra].
Qed.

(** C3. Fallback mode, one enrolled fallback-shape reference, a fallback-shape
    query: the pair has equal shapes, so it is scored by the cosine distance
    and judged against the cosine threshold.  The L2 distance of the pair is
    within the L2 threshold, yet the frame is rejected. *)
Theorem fallback_embeddings_scored_by_cosine :
  let s := mkFaceService false false (Some [(1%Z, pixel_a)]) in
  let frame := mkImage Raises pixel_b in
  (forall ref e d c, shape ref = 4096%nat /\ shape e = 4096%nat /\
                     distance ref e = Some (d, c) -> c = true)
  /\ shape pixel_a = 4096%nat /\ shape pixel_b = 4096%nat
  /\ _compute_embedding bare_world s frame = Some pixel_b
  /\ distance pixel_a pixel_b = Some (1%R, true)
  /\ (norm (sub_same pixel_a pixel_b) <= THRESHOLD_FALLBACK)%R
  /\ snd (predict_student_id_default bare_world s frame) = None.
Proof.
  split; [|split; [|split; [|split; [|split; [|split]]]]].
  - intros ref e d c (Hr & He & Hd).
    rewrite distance_same_shape in Hd by congruence. now injection Hd as _ <-.
  - reflexivity.
  - reflexivity.
  - reflexivity.
  - apply distance_pixels.
  - apply norm_pixels_diff.
  - unfold predict_student_id_default, predict_student_id. simpl.
    apply far_candidate_rejected.
Qed.

(** Counterexample for C8.  The zero vector, the fallback embedding of a black
    frame, matched against itself, is at distance 1 and is rejected at the
    default thresholds.  The embedding of a black frame with six white
    pixels, matched against itself with both thresholds 0, is rejected too:
    the [1e-8] of the denominator keeps the quotient below 1. *)
Lemma self_match_rejected :
  distance (zeros 4096) (zeros 4096) = Some (1%R, true)
  /\ (0 <= THRESHOLD_NN)%R
  /\ match_embedding [(1%Z, zeros 4096)] (zeros 4096) THRESHOLD_NN THRESHOLD_FALLBACK
     = None
  /\ shape six_white = 4096%nat
  /\ match_embedding [(1%Z, six_white)] six_white 0 0 = None.
Proof.
  split; [apply distance_zeros|split; [unfold THRESHOLD_NN; lra|split; [|split]]].
  - rewrite (match_single _ _ _ _ _ _ _ (distance_zeros 4096)).
    unfold threshold_for, THRESHOLD_NN.
    destruct (Rgt_dec 1 (35 / 100)) as [_|H]; [reflexivity|exfalso; lra].
  - unfold shape, six_white. cbn [List.length]. now rewrite length_zeros.
  - rewrite (match_single _ _ _ _ _ _ _ (distance_self six_white)).
    unfold threshold_for. pose proof self_distance_six_white as Hpos.
    destruct (Rgt_dec (EPS / (dot six_white six_white + EPS)) 0) as [_|H];
      [reflexivity|exfalso; lra].
Qed.

(** C8, amended. An embedding [E] with [|E|^2] at least [2e-8], enrolled for
    [X] and matched against itself, is scored by the cosine metric at a
    distance within the default cosine threshold 0.35: with thresholds at
    least 0.35 a store that holds it gives a match, and the match is [X] when
    [X] is the only reference.  The zero vector is at distance 1 from itself
    and is rejected by every cosine threshold below 1. *)
Theorem self_match_accepted_at_default
    (cache : dict ndarray) (X : Z) (E : ndarray) (tnn tfb : R) :
  In (X, E) cache ->
  (2 * EPS <= dot E E)%R ->
  (THRESHOLD_NN <= tnn)%R ->
  (THRESHOLD_NN <= tfb)%R ->
  (exists d, distance E E = Some (d, true) /\ (d <= THRESHOLD_NN)%R)
  /\ (exists sid, match_embedding cache E tnn tfb = Some sid)
  /\ match_embedding [(X, E)] E tnn tfb = Some X
  /\ (forall n t1 t2,
        distance (zeros n) (zeros n) = Some (1%R, true) /\
        ((t1 < 1)%R -> match_embedding [(X, zeros n)] (zeros n) t1 t2 = None)).
Proof.
  intros Hin HE Hn Hf. pose proof (self_distance_default E HE) as Hd.
  split; [|split; [|split]].
  - exists (EPS / (dot E E + EPS))%R. split; [apply distance_self|exact Hd].
  - destruct (scan_spec cache E) as [[_ Hnone]|(s0 & r0 & d0 & c0 & _ & _ & Hb & Hmin)].
    + specialize (Hnone _ Hin). simpl in Hnone. rewrite distance_self in Hnone.
      discriminate.
    + exists s0. apply match_embedding_Some. exists d0, c0. split; [assumption|].
      specialize (Hmin (X, E) _ _ Hin (distance_self E)).
      destruct c0; simpl; lra.
  - apply self_match_single. lra.
  - intros n t1 t2. split; [apply distance_zeros|]. intro Ht.
    rewrite (match_single _ _ _ _ _ _ _ (distance_zeros n)). unfold threshold_for.
    destruct (Rgt_dec 1 t1) as [_|H]; [reflexivity|exfalso; lra].
Qed.

Lemma self_match_accepted_at_default_witness :
  match_embedding [(1%Z, unit_512)] unit_512 THRESHOLD_NN THRESHOLD_FALLBACK = Some 1%Z.
Proof.
  apply (self_match_accepted_at_default [(1%Z, unit_512)] 1 unit_512
           THRESHOLD_NN THRESHOLD_FALLBACK).
  - now left.
  - unfold unit_512. cbn [dot]. rewrite dot_zeros_l. unfold EPS. lra.
  - apply Rle_refl.
  - unfold THRESHOLD_NN, THRESHOLD_FALLBACK. lra.
Defined.

(** A store with references of both variants: the NN-shape query skips the
    fallback-shape reference and matches the NN-shape one. *)
Example mixed_store_matches_same_shape :
  match_embedding [(1%Z, pixel_a); (2%Z, unit_512)] unit_512
    THRESHOLD_NN THRESHOLD_FALLBACK = Some 2%Z.
Proof.
  assert (Hskip : distance pixel_a unit_512 = None).
  { apply distance_no_broadcast; unfold shape, pixel_a, unit_512;
      cbn [List.length]; rewrite !length_zeros; lia. }
  pose proof self_distance_unit_512 as Hd. unfold THRESHOLD_NN in Hd.
  unfold match_embedding, scan, scan_step. cbn [fold_left fst snd].
  rewrite Hskip, distance_self. cbn [lt_score best_score best0].
  cbn [best_id best_is_cosine best_score gt_score]. unfold THRESHOLD_NN.
  destruct (Rgt_dec (EPS / (dot unit_512 unit_512 + EPS)) (35 / 100)) as [H|_];
    [exfalso; lra|reflexivity].
Qed.

(** C9. With embeddings of the two variants' shapes, a reference whose shape
    is not the query's is never the winner: comparing it raises inside the
    [try], the scan goes on as if the reference were not there, and the
    matcher gives what it gives on the references of the query's shape.  A
    returned student has a reference of the query's shape, scored by the
    cosine metric within its threshold; a store with references of the other
    variant only gives no match. *)
Theorem cross_variant_reference_skipped
    (cache : dict ndarray) (e : ndarray) (tnn tfb : R) :
  variant_shape e ->
  (forall sid ref, In (sid, ref) cache -> variant_shape ref) ->
  (forall sid ref, In (sid, ref) cache -> shape ref <> shape e ->
     distance ref e = None /\ forall b, scan_step e b (sid, ref) = b)
  /\ match_embedding cache e tnn tfb =
     match_embedding (filter (same_shape e) cache) e tnn tfb
  /\ (forall sid, match_embedding cache e tnn tfb = Some sid ->
        exists ref d,
          In (sid, ref) cache /\ shape ref = shape e /\
          distance ref e = Some (d, true) /\ (d <= tnn)%R)
  /\ ((forall sid ref, In (sid, ref) cache -> shape ref <> shape e) ->
      match_embedding cache e tnn tfb = None).
Proof.
  intros He Hc.
  assert (Hskip : forall sid ref, In (sid, ref) cache -> shape ref <> shape e ->
                                  distance ref e = None).
  { intros sid ref Hin Hne. apply variant_no_broadcast; [now apply (Hc sid)|exact He|exact Hne]. }
  assert (G : forall sid, match_embedding cache e tnn tfb = Some sid ->
        exists ref d,
          In (sid, ref) cache /\ shape ref = shape e /\
          distance ref e = Some (d, true) /\ (d <= tnn)%R).
  { intros sid H. apply match_embedding_Some in H as (d & c & Hscan & Hle).
    destruct (scan_spec cache e) as [[Hb _]|(s0 & r0 & d0 & c0 & Hin & Hd & Hb & _)];
      rewrite Hb in Hscan; [discriminate|].
    injection Hscan as <- <- <-. exists r0, d0.
    destruct (Nat.eq_dec (shape r0) (shape e)) as [Hsh|Hne].
    - rewrite (distance_same_shape _ _ Hsh) in Hd. injection Hd as <- <-.
      rewrite (distance_same_shape _ _ Hsh). auto.
    - rewrite (Hskip _ _ Hin Hne) in Hd. discriminate. }
  split; [|split; [|split; [exact G|]]].
  - intros sid ref Hin Hne. pose proof (Hskip sid ref Hin Hne) as Hd.
    split; [exact Hd|]. intro b. unfold scan_step. cbn [snd]. now rewrite Hd.
  - unfold match_embedding, scan.
    rewrite (fold_scan_filter e (same_shape e) cache); [reflexivity|].
    intros [sid ref] Hin K. unfold same_shape in K. cbn [snd] in *.
    apply (Hskip sid ref Hin). now apply Nat.eqb_neq.
  - intro Hall.
    destruct (match_embedding cache e tnn tfb) as [sid|] eqn:E; [|reflexivity].
    destruct (G sid eq_refl) as (ref & d & Hin & Hsh & _).
    now destruct (Hall sid ref Hin).
Qed.

Lemma cross_variant_reference_skipped_witness :
  distance pixel_a unit_512 = None
  /\ match_embedding [(1%Z, pixel_a); (2%Z, unit_512)] unit_512
       THRESHOLD_NN THRESHOLD_FALLBACK
     = match_embedding [(2%Z, unit_512)] unit_512 THRESHOLD_NN THRESHOLD_FALLBACK.
Proof.
  assert (Hu : shape unit_512 = 512%nat).
  { unfold shape, unit_512. cbn [List.length]. now rewrite length_zeros. }
  assert (Hp : shape pixel_a = 4096%nat).
  { unfold shape, pixel_a. cbn [List.length]. now rewrite length_zeros. }
  assert (He : variant_shape unit_512) by now left.
  assert (Hc : forall sid ref, In (sid, ref) [(1%Z, pixel_a); (2%Z, unit_512)] ->
                               variant_shape ref).
  { intros sid ref [H|[H|[]]]; injection H as _ <-; [now right|now left]. }
  destruct (cross_variant_reference_skipped [(1%Z, pixel_a); (2%Z, unit_512)] unit_512
              THRESHOLD_NN THRESHOLD_FALLBACK He Hc) as (H1 & H2 & _).
  split.
  - apply (H1 1%Z pixel_a); [now left|]. rewrite Hu, Hp. discriminate.
  - rewrite H2. cbn [filter]. unfold same_shape. cbn [snd].
    rewrite Hu, Hp. reflexivity.
Defined.

(** * Frames, verdicts and the vote *)

Section Frames.

Lemma collect_preds_skip (w : World) (files : list Upload) :
  forall s preds,
    collect_preds w s files preds =
    collect_preds w s (filter (fun f => negb (no_image f)) files) preds.
Proof.
  induction files as [|[|[img|]] r IH]; intros s preds; cbn [filter no_image negb].
  - reflexivity.
  - reflexivity.
  - cbn [collect_preds]. destruct (predict_student_id_default w s img) as [s' pid]. apply IH.
  - cbn [collect_preds]. apply IH.
Qed.

Lemma collect_preds_decoded (w : World) (files : list Upload) :
  forallb (fun f => negb (empty_file f)) files = true ->
  forall s preds,
    collect_preds w s files preds = collect_preds w s (filter decoded files) preds.
Proof.
  induction files as [|[|[img|]] r IH]; intros Hne s preds;
    cbn [forallb empty_file negb andb] in Hne; cbn [filter decoded].
  - reflexivity.
  - discriminate.
  - cbn [collect_preds]. destruct (predict_student_id_default w s img) as [s' pid].
    now apply IH.
  - cbn [collect_preds]. now apply IH.
Qed.

Lemma collect_preds_length (w : World) (files : list Upload) :
  forall s preds s' out,
    collect_preds w s files preds = (s', Some out) ->
    List.length out = (List.length preds + List.length (filter decoded files))%nat.
Proof.
  induction files as [|[|[img|]] r IH]; intros s preds s' out H;
    cbn [collect_preds] in H; cbn [filter decoded].
  - injection H as _ <-. cbn [List.length]. lia.
  - discriminate.
  - destruct (predict_student_id_default w s img) as [s1 pid].
    apply IH in H. rewrite H, length_app. cbn [List.length]. lia.
  - now apply IH in H.
Qed.

Lemma collect_preds_returns (w : World) (files : list Upload) :
  forallb (fun f => negb (empty_file f)) files = true ->
  forall s preds, exists s' out, collect_preds w s files preds = (s', Some out).
Proof.
  induction files as [|[|[img|]] r IH]; intros Hne s preds;
    cbn [forallb empty_file negb andb] in Hne; cbn [collect_preds].
  - now exists s, preds.
  - discriminate.
  - destruct (predict_student_id_default w s img) as [s1 pid]. now apply IH.
  - now apply IH.
Qed.

Lemma collect_preds_none_decoded (w : World) (files : list Upload) :
  forallb no_image files = true ->
  forall s preds, collect_preds w s files preds = (s, Some preds).
Proof.
  induction files as [|[|[img|]] r IH]; intros Hall s preds;
    cbn [forallb no_image andb] in Hall; try discriminate; cbn [collect_preds].
  - reflexivity.
  - now apply IH.
Qed.

Lemma predict_extraction_failed (w : World) (s : FaceService) (img : Image) :
  _compute_embedding w s img = None ->
  predict_student_id_default w s img = (s, None).
Proof.
  intro H. unfold predict_student_id_default, predict_student_id. now rewrite H.
Qed.

Lemma predict_good_frame :
  predict_student_id_default bare_world nn_service good_frame = (nn_service, Some 1%Z).
Proof.
  unfold predict_student_id_default, predict_student_id. simpl.
  unfold set_cache, nn_service. simpl. f_equal.
  apply self_match_single, self_distance_unit_512.
Qed.

End Frames.

(** The endpoint on a burst of three frames, two of them of student 1, on
    Monday at 09:30: attendance is marked for subject 1; the same burst a
    quarter of an hour later finds it marked. *)
Example recognize_marks_attendance :
  let burst := [Bytes (Some good_frame); Bytes (Some bad_frame); Bytes (Some good_frame)] in
  let run1 := attendance_recognize true bare_world nn_service monday_db burst
                (monday_at 9 30) in
  let run2 := attendance_recognize true bare_world nn_service (snd (fst run1)) burst
                (monday_at 9 45) in
  snd run1 = AttendanceMarked 1 "A" 1 "Subj1"
  /\ count_records (snd (fst run1)) 1 1 738886 = 1%nat
  /\ snd run2 = AttendanceAlreadyMarked 1 "A" 1 "Subj1"
  /\ snd (fst run2) = snd (fst run1).
Proof.
  assert (Hp : collect_preds bare_world nn_service
                 [Bytes (Some good_frame); Bytes (Some bad_frame); Bytes (Some good_frame)] []
               = (nn_service, Some [Some 1%Z; None; Some 1%Z])).
  { cbn [collect_preds]. rewrite predict_good_frame. cbn [collect_preds app].
    rewrite (predict_extraction_failed bare_world nn_service bad_frame eq_refl).
    cbn [collect_preds app]. rewrite predict_good_frame. reflexivity. }
  cbv zeta. unfold attendance_recognize. cbn [negb _HAS_CV2 bare_world].
  rewrite Hp. repeat apply conj; reflexivity.
Qed.

(** No file of the burst decodes: the answer names no student. *)
Example recognize_bad_image_frames :
  attendance_recognize true bare_world nn_service monday_db [Bytes None; Bytes None]
    (monday_at 9 30)
  = (nn_service, monday_db, BadImageFrames).
Proof. reflexivity. Qed.

(** A file without bytes between two frames of student 1: [cv2.imdecode]
    raises on it, nothing catches the error, the request fails and the ledger
    stays as it was. *)
Example recognize_empty_upload :
  attendance_recognize true bare_world nn_service monday_db
    [Bytes (Some good_frame); EmptyFile; Bytes (Some good_frame)] (monday_at 9 30)
  = (nn_service, monday_db, InternalServerError).
Proof.
  unfold attendance_recognize. cbn [negb _HAS_CV2 bare_world]. cbv iota.
  cbn [collect_preds]. rewrite predict_good_frame. reflexivity.
Qed.

(** Counterexample for C4: a frame that decodes and whose extraction fails
    has its verdict [None] counted.  Two frames of student 1 and two such
    frames give no majority, though the two frames of student 1 alone give
    one. *)
Lemma failed_extraction_is_counted :
  _compute_embedding bare_world nn_service bad_frame = None
  /\ snd (collect_preds bare_world nn_service
            [Bytes (Some good_frame); Bytes (Some good_frame);
             Bytes (Some bad_frame); Bytes (Some bad_frame)] [])
     = Some [Some 1%Z; Some 1%Z; None; None]
  /\ majority_vote [Some 1%Z; Some 1%Z; None; None] = Inconsistent
  /\ majority_vote [Some 1%Z; Some 1%Z] = Majority 1.
Proof.
  split; [reflexivity|split; [|split; reflexivity]].
  cbn [collect_preds]. rewrite predict_good_frame.
  cbn [collect_preds app]. rewrite predict_good_frame.
  cbn [collect_preds app].
  rewrite (predict_extraction_failed bare_world nn_service bad_frame eq_refl).
  cbn [collect_preds app].
  rewrite (predict_extraction_failed bare_world nn_service bad_frame eq_refl).
  reflexivity.
Qed.

(** C4, amended. Among uploaded files that have bytes, a file that
    [cv2.imdecode] cannot decode is skipped and raises nothing: the verdicts
    are those of the decoded frames, one each, so [n] is the number of
    decoded frames.  A decoded frame whose extraction fails gives the verdict
    [None], which is counted.  When no file decodes, the endpoint answers at
    once with no student, and the ledger is untouched. *)
Theorem undecodable_frames_skipped
    (w : World) (s : FaceService) (db : DB) (files : list Upload) (now : datetime) :
  collect_preds w s files [] =
  collect_preds w s (filter (fun f => negb (no_image f)) files) []
  /\ (forallb (fun f => negb (empty_file f)) files = true ->
      collect_preds w s files [] = collect_preds w s (filter decoded files) []
      /\ exists s' preds,
           collect_preds w s files [] = (s', Some preds) /\
           List.length preds = List.length (filter decoded files))
  /\ (forall img r preds, _compute_embedding w s img = None ->
        collect_preds w s (Bytes (Some img) :: r) preds =
        collect_preds w s r (preds ++ [None]))
  /\ (files <> [] /\ _HAS_CV2 w = true /\ forallb no_image files = true ->
      attendance_recognize true w s db files now = (s, db, BadImageFrames)).
Proof.
  split; [apply collect_preds_skip|split; [|split]].
  - intro Hne. split; [now apply collect_preds_decoded|].
    destruct (collect_preds_returns w files Hne s []) as (s' & out & H).
    exists s', out. split; [exact H|].
    now rewrite (collect_preds_length w files s [] s' out H).
  - intros img r preds H. cbn [collect_preds].
    now rewrite (predict_extraction_failed w s img H).
  - intros (Hne & Hcv & Hall). unfold attendance_recognize.
    destruct files as [|f r]; [contradiction|].
    rewrite Hcv. simpl negb. cbv iota.
    now rewrite (collect_preds_none_decoded w (f :: r) Hall).
Qed.

(** * Enrollment, deletion and the cache *)

Section Store.

Lemma dict_get_set (V : Type) (d : dict V) (k : Z) (v : V) :
  dict_get (dict_set d k v) k = Some v.
Proof.
  induction d as [|[k' v'] r IH]; simpl.
  - now rewrite Z.eqb_refl.
  - destruct (Z.eqb k' k) eqn:E; simpl; rewrite E; [reflexivity|exact IH].
Qed.

(** The result of an enrollment in terms of the image and its embedding. *)
Lemma enroll_result (w : World) (s : FaceService) (img_path : string) (student_id : Z) :
  snd (enroll_from_path w s img_path student_id) =
  andb (_HAS_CV2 w)
    (andb (negb (String.eqb img_path EmptyString))
       (match imread w (fs_path w img_path) with
        | Some img => match _compute_embedding w s img with
                      | Some _ => true
                      | None => false
                      end
        | None => false
        end)).
Proof.
  unfold enroll_from_path.
  destruct (_HAS_CV2 w); simpl; [|reflexivity].
  destruct (String.eqb img_path EmptyString); simpl; [reflexivity|].
  destruct (imread w (fs_path w img_path)) as [img|]; [|reflexivity].
  destruct (_compute_embedding w s img) as [e|]; [|reflexivity].
  destruct (disk_ok w), (supabase s); simpl; try reflexivity;
    destruct (remote_up w); reflexivity.
Qed.

Lemma predict_from_cache (w : World) (s : FaceService) (img : Image)
    (e : ndarray) (cache : dict ndarray) :
  _compute_embedding w s img = Some e -> load_cache w s = cache ->
  predict_student_id_default w s img =
  (set_cache s (Some cache), match_embedding cache e THRESHOLD_NN THRESHOLD_FALLBACK).
Proof.
  intros He Hc. unfold predict_student_id_default, predict_student_id.
  now rewrite He, Hc.
Qed.

(** With Supabase configured and reachable, a successful enrollment resets
    the cache. *)
Lemma enroll_invalidates_with_supabase
    (w : World) (s : FaceService) (img_path : string) (student_id : Z) :
  supabase s = true -> remote_up w = true ->
  snd (enroll_from_path w s img_path student_id) = true ->
  _emb_cache (snd (fst (enroll_from_path w s img_path student_id))) = None.
Proof.
  intros Hs Hr. unfold enroll_from_path.
  destruct (orb (negb (_HAS_CV2 w)) (String.eqb img_path EmptyString));
    [discriminate|].
  destruct (imread w (fs_path w img_path)) as [img|]; [|discriminate].
  destruct (_compute_embedding w s img) as [e|]; [|discriminate].
  rewrite Hs. destruct (disk_ok w); simpl; rewrite Hr; reflexivity.
Qed.

Lemma match_two_students :
  match_embedding [(1%Z, pixel_a); (2%Z, pixel_b)] pixel_b THRESHOLD_NN THRESHOLD_FALLBACK
  = Some 2%Z.
Proof.
  pose proof self_distance_pixel_b as Hb. unfold THRESHOLD_NN in Hb.
  unfold match_embedding, scan, scan_step. cbn [fold_left fst snd].
  rewrite distance_pixels. cbn [lt_score best_score best0]. rewrite distance_self.
  cbn [lt_score best_score].
  destruct (Rlt_dec (EPS / (dot pixel_b pixel_b + EPS)) 1) as [_|H]; [|exfalso; lra].
  cbn [best_id best_is_cosine best_score gt_score]. unfold THRESHOLD_NN.
  destruct (Rgt_dec (EPS / (dot pixel_b pixel_b + EPS)) (35 / 100)) as [H|_];
    [exfalso; lra|reflexivity].
Qed.

End Store.

(** Counterexample for C10: [np.save] fails and Supabase is down, the
    embedding is stored nowhere, and the enrollment returns [True]. *)
Lemma enroll_true_without_storing :
  let w := with_outcomes campus_world false false in
  let s := init false true in
  enroll_from_path w s "/uploads/a.jpg" 1 = (w, s, true)
  /\ emb_files w = [] /\ face_embeddings w = [].
Proof. repeat split. Qed.

(** C10, amended. The enrollment returns [True] exactly when OpenCV is
    there, the path is not empty, the image is read and an embedding is
    computed from it.  Neither a failed local write nor a failed Supabase
    write changes the result; when the local write succeeds the file of the
    student holds the embedding, whatever happens to the Supabase write. *)
Theorem enroll_returns_embedding_produced
    (w : World) (s : FaceService) (img_path : string) (student_id : Z) :
  (snd (enroll_from_path w s img_path student_id) = true <->
     _HAS_CV2 w = true /\ img_path <> EmptyString /\
     exists img e, imread w (fs_path w img_path) = Some img /\
                   _compute_embedding w s img = Some e)
  /\ (forall disk remote,
        snd (enroll_from_path (with_outcomes w disk remote) s img_path student_id) =
        snd (enroll_from_path w s img_path student_id))
  /\ (forall img e remote,
        _HAS_CV2 w = true /\ img_path <> EmptyString /\
        imread w (fs_path w img_path) = Some img /\
        _compute_embedding w s img = Some e ->
        dict_get
          (emb_files (fst (fst (enroll_from_path (with_outcomes w true remote) s
                                  img_path student_id))))
          student_id = Some e).
Proof.
  split; [|split].
  - rewrite enroll_result, !andb_true_iff, negb_true_iff, String.eqb_neq.
    split.
    + intros (Hcv & Hp & H). split; [exact Hcv|split; [exact Hp|]].
      destruct (imread w (fs_path w img_path)) as [img|]; [|discriminate].
      destruct (_compute_embedding w s img) as [e|] eqn:He; [|discriminate].
      exists img, e. split; [reflexivity|exact He].
    + intros (Hcv & Hp & img & e & Hi & He). split; [exact Hcv|split; [exact Hp|]].
      now rewrite Hi, He.
  - intros disk remote. now rewrite !enroll_result.
  - intros img e remote (Hcv & Hp & Hi & He).
    apply String.eqb_neq in Hp.
    unfold enroll_from_path. simpl. rewrite Hcv, Hp. simpl.
    change (fs_path (with_outcomes w true remote) img_path) with (fs_path w img_path).
    rewrite Hi.
    change (_compute_embedding (with_outcomes w true remote) s img)
      with (_compute_embedding w s img).
    rewrite He.
    destruct (supabase s), remote; simpl; apply dict_get_set.
Qed.

(** C2. No Supabase; student 1 is enrolled and recognised once, which fills
    the cache.  The profile is deleted and the embedding file with it: the
    warm service still returns student 1, a fresh one returns nothing.  And
    an enrollment on the warm service leaves the cache as it is: the new
    student 2 is in the store and is not recognised. *)
Theorem stale_cache_after_delete_and_enroll :
  let s0 := init false false in
  let enrolled := set_emb_files campus_world [(1%Z, pixel_a)] in
  let warm := mkFaceService false false (Some [(1%Z, pixel_a)]) in
  let enrolled2 := set_emb_files campus_world [(1%Z, pixel_a); (2%Z, pixel_b)] in
  enroll_from_path campus_world s0 "/uploads/a.jpg" 1 = (enrolled, s0, true)
  /\ predict_student_id_default enrolled s0 photo_a = (warm, Some 1%Z)
  /\ option_map fst (delete_student_profile enrolled false monday_db 1) = Some campus_world
  /\ emb_files campus_world = []
  /\ predict_student_id_default campus_world warm photo_a = (warm, Some 1%Z)
  /\ snd (predict_student_id_default campus_world s0 photo_a) = None
  /\ enroll_from_path enrolled warm "/uploads/b.jpg" 2 = (enrolled2, warm, true)
  /\ snd (predict_student_id_default enrolled2 warm photo_b) = None
  /\ snd (predict_student_id_default enrolled2 s0 photo_b) = Some 2%Z.
Proof.
  assert (Hself : match_embedding [(1%Z, pixel_a)] pixel_a THRESHOLD_NN THRESHOLD_FALLBACK
                  = Some 1%Z)
    by (apply self_match_single, self_distance_pixel_a).
  intros s0 enrolled warm enrolled2. repeat apply conj; try reflexivity.
  - rewrite (predict_from_cache enrolled s0 photo_a pixel_a [(1%Z, pixel_a)]
               eq_refl eq_refl).
    now rewrite Hself.
  - rewrite (predict_from_cache campus_world warm photo_a pixel_a [(1%Z, pixel_a)]
               eq_refl eq_refl).
    now rewrite Hself.
  - rewrite (predict_from_cache enrolled2 warm photo_b pixel_b [(1%Z, pixel_a)]
               eq_refl eq_refl).
    apply far_candidate_rejected.
  - rewrite (predict_from_cache enrolled2 s0 photo_b pixel_b
               [(1%Z, pixel_a); (2%Z, pixel_b)] eq_refl eq_refl).
    apply match_two_students.
Qed.

(** * More on the vote *)

Section VoteOrder.

Lemma majority_vote_count (preds : list verdict) (a : Z) :
  majority_vote preds = Majority a <->
  (List.length preds / 2 < count_occ verdict_eq_dec preds (Some a))%nat.
Proof.
  destruct preds as [|p preds].
  { simpl. split; [discriminate|lia]. }
  destruct (most_common_1_spec (p :: preds) ltac:(discriminate))
    as (k & n & Hmc & Hn & Hmax).
  unfold majority_vote. rewrite Hmc.
  destruct k as [s|].
  - destruct (Nat.leb_spec n (List.length (p :: preds) / 2)) as [Hle|Hgt].
    + split; [discriminate|]. intro H. specialize (Hmax (Some a)). lia.
    + split.
      * intro H. injection H as ->. lia.
      * intro H. destruct (Z.eq_dec s a) as [->|Hne]; [reflexivity|].
        assert (Hd : Some a <> Some s) by congruence.
        pose proof (count_occ_two (p :: preds) (Some a) (Some s) Hd).
        pose proof (Nat.div_mod_eq (List.length (p :: preds)) 2).
        pose proof (Nat.mod_upper_bound (List.length (p :: preds)) 2 ltac:(lia)).
        specialize (Hmax (Some a)). lia.
  - split; [discriminate|]. intro H.
    assert (Hd : Some a <> None) by discriminate.
    pose proof (count_occ_two (p :: preds) (Some a) None Hd).
    pose proof (Nat.div_mod_eq (List.length (p :: preds)) 2).
    pose proof (Nat.mod_upper_bound (List.length (p :: preds)) 2 ltac:(lia)).
    specialize (Hmax (Some a)). lia.
Qed.

Lemma majority_vote_cases (p : verdict) (preds : list verdict) :
  majority_vote (p :: preds) = Inconsistent \/
  exists a, majority_vote (p :: preds) = Majority a.
Proof.
  destruct (most_common_1_spec (p :: preds) ltac:(discriminate))
    as (k & n & Hmc & _).
  unfold majority_vote. rewrite Hmc.
  destruct k as [s|]; [|now left].
  destruct (Nat.leb n (List.length (p :: preds) / 2)); [now left|right; now exists s].
Qed.

End VoteOrder.

(** X1. The vote does not depend on the order in which the frames arrive:
    two bursts with the same verdicts in another order get the same
    answer. *)
Theorem majority_vote_permutation (p q : list verdict) :
  Permutation p q -> majority_vote p = majority_vote q.
Proof.
  intro HP.
  assert (Hc : forall a, majority_vote p = Majority a <-> majority_vote q = Majority a).
  { intro a. rewrite !majority_vote_count, (Permutation_length HP).
    now rewrite (proj1 (Permutation_count_occ verdict_eq_dec p q) HP). }
  destruct p as [|x p].
  { apply Permutation_nil in HP. now subst. }
  destruct q as [|y q].
  { apply Permutation_sym, Permutation_nil in HP. discriminate. }
  destruct (majority_vote_cases x p) as [Hp|[a Hp]].
  - destruct (majority_vote_cases y q) as [Hq|[b Hq]]; [congruence|].
    apply Hc in Hq. congruence.
  - rewrite Hp. symmetry. now apply Hc.
Qed.

Lemma majority_vote_permutation_witness :
  majority_vote [Some 1%Z; None; Some 1%Z] = majority_vote [None; Some 1%Z; Some 1%Z].
Proof.
  apply majority_vote_permutation.
  apply perm_swap.
Defined.

(** * More on the matcher *)

Section MatcherOrder.

Open Scope R_scope.

Lemma fold_scan_keep (e : ndarray) (l : dict ndarray) (sid : Z) (d : R) (c : bool) :
  (forall item d' c', In item l -> distance (snd item) e = Some (d', c') -> d <= d') ->
  fold_left (scan_step e) l (mkBest (Some sid) (Fin d) c) = mkBest (Some sid) (Fin d) c.
Proof.
  induction l as [|item l IH]; intro H; simpl; [reflexivity|].
  assert (Hs : scan_step e (mkBest (Some sid) (Fin d) c) item
               = mkBest (Some sid) (Fin d) c).
  { unfold scan_step. destruct (distance (snd item) e) as [[d' c']|] eqn:E; [|reflexivity].
    simpl. specialize (H item d' c' (or_introl eq_refl) E).
    destruct (Rlt_dec d' d) as [Hlt|_]; [lra|reflexivity]. }
  rewrite Hs. apply IH. intros it d' c' Hit. apply H. now right.
Qed.

Lemma scan_first_nearest (l1 l2 : dict ndarray) (sid : Z) (ref e : ndarray)
    (d : R) (c : bool) :
  distance ref e = Some (d, c) ->
  (forall item d' c', In item l1 -> distance (snd item) e = Some (d', c') -> d < d') ->
  (forall item d' c', In item l2 -> distance (snd item) e = Some (d', c') -> d <= d') ->
  scan (l1 ++ (sid, ref) :: l2) e = mkBest (Some sid) (Fin d) c.
Proof.
  intros Hd H1 H2. unfold scan. rewrite fold_left_app. simpl.
  assert (Hs : scan_step e (fold_left (scan_step e) l1 best0) (sid, ref)
               = mkBest (Some sid) (Fin d) c).
  { fold (scan l1 e).
    destruct (scan_spec l1 e) as [[-> _]|(s0 & r0 & d0 & c0 & Hin & Hd0 & -> & _)];
      unfold scan_step; simpl; rewrite Hd; simpl; [reflexivity|].
    specialize (H1 (s0, r0) d0 c0 Hin Hd0).
    destruct (Rlt_dec d d0) as [_|Hn]; [reflexivity|lra]. }
  rewrite Hs. now apply fold_scan_keep.
Qed.

Lemma match_of_scan (cache : dict ndarray) (e : ndarray) (tnn tfb : R)
    (sid : Z) (d : R) (c : bool) :
  scan cache e = mkBest (Some sid) (Fin d) c ->
  match_embedding cache e tnn tfb =
  if Rgt_dec d (threshold_for c tnn tfb) then None else Some sid.
Proof.
  intro H. unfold match_embedding. rewrite H. simpl.
  destruct c; simpl; [destruct (Rgt_dec d tnn)|destruct (Rgt_dec d tfb)]; reflexivity.
Qed.

Lemma scan_empty_iff (cache : dict ndarray) (e : ndarray) :
  best_id (scan cache e) = None <->
  forall item, In item cache -> distance (snd item) e = None.
Proof.
  destruct (scan_spec cache e) as [[Hb Hn]|(s0 & r0 & d0 & c0 & Hin & Hd & Hb & _)];
    rewrite Hb; simpl.
  - split; auto.
  - split; [discriminate|]. intro H. specialize (H _ Hin). simpl in H. congruence.
Qed.

End MatcherOrder.

(** X2. Ties go to the reference met first: when the references before it
    are all strictly farther from the query and those after it are no
    nearer, the scan ends on it, and the matcher returns its student exactly
    when its distance is within the threshold of its metric. *)
Theorem first_nearest_reference_wins
    (l1 l2 : dict ndarray) (sid : Z) (ref e : ndarray) (d : R) (c : bool)
    (tnn tfb : R) :
  distance ref e = Some (d, c) ->
  (forall item d' c', In item l1 -> distance (snd item) e = Some (d', c') ->
                      (d < d')%R) ->
  (forall item d' c', In item l2 -> distance (snd item) e = Some (d', c') ->
                      (d <= d')%R) ->
  scan (l1 ++ (sid, ref) :: l2) e = mkBest (Some sid) (Fin d) c
  /\ match_embedding (l1 ++ (sid, ref) :: l2) e tnn tfb =
     if Rgt_dec d (threshold_for c tnn tfb) then None else Some sid.
Proof.
  intros Hd H1 H2.
  pose proof (scan_first_nearest l1 l2 sid ref e d c Hd H1 H2) as Hs.
  split; [exact Hs|]. now apply match_of_scan.
Qed.

Lemma first_nearest_reference_wins_witness :
  match_embedding [(1%Z, pixel_a); (2%Z, pixel_a)] pixel_a THRESHOLD_NN THRESHOLD_FALLBACK
  = Some 1%Z.
Proof.
  pose proof (first_nearest_reference_wins [] [(2%Z, pixel_a)] 1 pixel_a pixel_a
                _ true THRESHOLD_NN THRESHOLD_FALLBACK (distance_self pixel_a)) as H.
  destruct H as [_ H].
  - intros item d' c' [].
  - intros item d' c' [<-|[]] Hd. simpl in Hd. rewrite distance_self in Hd.
    injection Hd as <- _. apply Rle_refl.
  - simpl app in H. rewrite H. simpl threshold_for.
    destruct (Rgt_dec (EPS / (dot pixel_a pixel_a + EPS)) THRESHOLD_NN) as [Hgt|_];
      [|reflexivity].
    pose proof self_distance_pixel_a. exfalso. apply (Rgt_not_le _ _ Hgt). assumption.
Defined.

(** X3. The score of the winner does not depend on the order of the store;
    when every reference has the query's shape, neither does the decision to
    accept or to reject. *)
Theorem scan_score_permutation (c1 c2 : dict ndarray) (e : ndarray) :
  Permutation c1 c2 ->
  best_score (scan c1 e) = best_score (scan c2 e)
  /\ ((forall item, In item c1 -> shape (snd item) = shape e) ->
      forall tnn tfb,
        match_embedding c1 e tnn tfb = None <-> match_embedding c2 e tnn tfb = None).
Proof.
  intro HP.
  assert (Hin : forall x, In x c1 <-> In x c2).
  { intro x. split; apply Permutation_in; [assumption|now apply Permutation_sym]. }
  destruct (scan_spec c1 e) as [[Hb1 Hn1]|(s1 & r1 & d1 & k1 & Hi1 & Hd1 & Hb1 & Hm1)];
    destruct (scan_spec c2 e) as [[Hb2 Hn2]|(s2 & r2 & d2 & k2 & Hi2 & Hd2 & Hb2 & Hm2)].
  - rewrite Hb1, Hb2. split; [reflexivity|].
    intros _ tnn tfb. unfold match_embedding. rewrite Hb1, Hb2. simpl. tauto.
  - apply Hin in Hi2. specialize (Hn1 _ Hi2). simpl in Hn1. congruence.
  - apply Hin in Hi1. specialize (Hn2 _ Hi1). simpl in Hn2. congruence.
  - assert (Heq : d1 = d2).
    { pose proof (Hm1 (s2, r2) d2 k2 (proj2 (Hin _) Hi2) Hd2).
      pose proof (Hm2 (s1, r1) d1 k1 (proj1 (Hin _) Hi1) Hd1).
      apply Rle_antisym; assumption. }
    subst d2. rewrite Hb1, Hb2. split; [reflexivity|].
    intros Hsh tnn tfb.
    assert (k1 = true).
    { rewrite distance_same_shape in Hd1 by (apply (Hsh (s1, r1) Hi1)).
      now injection Hd1 as _ <-. }
    assert (k2 = true).
    { rewrite distance_same_shape in Hd2 by (apply (Hsh (s2, r2)), Hin, Hi2).
      now injection Hd2 as _ <-. }
    subst k1 k2.
    rewrite (match_of_scan c1 e tnn tfb s1 d1 true Hb1).
    rewrite (match_of_scan c2 e tnn tfb s2 d1 true Hb2).
    destruct (Rgt_dec d1 (threshold_for true tnn tfb)); split; congruence.
Qed.

Lemma scan_score_permutation_witness :
  best_score (scan [(1%Z, pixel_a); (2%Z, pixel_b)] pixel_b)
  = best_score (scan [(2%Z, pixel_b); (1%Z, pixel_a)] pixel_b).
Proof.
  apply (scan_score_permutation [(1%Z, pixel_a); (2%Z, pixel_b)]
           [(2%Z, pixel_b); (1%Z, pixel_a)] pixel_b).
  apply perm_swap.
Defined.

Section Symmetry.

Open Scope R_scope.

Lemma dot_comm (a b : ndarray) : dot a b = dot b a.
Proof.
  revert b. induction a as [|x a IH]; intros [|y b]; simpl; try reflexivity.
  rewrite IH. lra.
Qed.

Lemma dot_map_opp (f g : R -> R) (l : ndarray) :
  (forall y, f y = - g y) -> dot (map f l) (map f l) = dot (map g l) (map g l).
Proof.
  intro H. induction l as [|y l IH]; simpl; [reflexivity|].
  rewrite IH, H. ring.
Qed.

End Symmetry.

(** X5. The distance is symmetric: a reference and a query exchanged are
    scored alike, with the same metric tag, and a pair that cannot be
    compared one way cannot be compared the other way. *)
Theorem distance_symmetric (a b : ndarray) : distance a b = distance b a.
Proof.
  unfold distance, shape, sub.
  rewrite (Nat.eqb_sym (List.length b) (List.length a)).
  destruct (Nat.eqb_spec (List.length a) (List.length b)) as [Heq|Hne].
  - now rewrite (dot_comm a b), (Rmult_comm (norm a) (norm b)).
  - unfold norm.
    destruct a as [|x [|x' a]], b as [|y [|y' b]]; simpl in Hne; try lia;
      try reflexivity; do 3 f_equal.
    + apply (dot_map_opp (fun y0 => x - y0) (fun x0 => x0 - x)). intro; lra.
    + apply (dot_map_opp (fun x0 => x0 - y) (fun y0 => y - y0)). intro; lra.
Qed.

(** * More on the store and the cache *)

Section StoreMore.

Lemma dict_get_set_other (V : Type) (d : dict V) (k k' : Z) (v : V) :
  k <> k' -> dict_get (dict_set d k v) k' = dict_get d k'.
Proof.
  intro Hne. induction d as [|[k0 v0] r IH]; simpl.
  - destruct (Z.eqb_spec k k'); [contradiction|reflexivity].
  - destruct (Z.eqb_spec k0 k) as [->|Hk]; simpl.
    + destruct (Z.eqb_spec k k'); [contradiction|reflexivity].
    + destruct (Z.eqb k0 k'); [reflexivity|exact IH].
Qed.

Lemma dict_set_keys (V : Type) (d : dict V) (k k' : Z) (v : V) :
  In k' (map fst (dict_set d k v)) <-> k' = k \/ In k' (map fst d).
Proof.
  induction d as [|[k0 v0] r IH]; simpl.
  - intuition.
  - destruct (Z.eqb_spec k0 k) as [->|Hk]; simpl; [intuition|].
    rewrite IH. intuition.
Qed.

Lemma dict_set_NoDup (V : Type) (d : dict V) (k : Z) (v : V) :
  NoDup (map fst d) -> NoDup (map fst (dict_set d k v)).
Proof.
  induction d as [|[k0 v0] r IH]; simpl; intro H.
  - constructor; [intros []|constructor].
  - inversion H as [|? ? Hnotin Hnd]; subst.
    destruct (Z.eqb_spec k0 k) as [->|Hk]; simpl.
    + now constructor.
    + constructor; [|now apply IH].
      intro Hin. apply dict_set_keys in Hin as [Heq|Hin]; [congruence|contradiction].
Qed.

Lemma dict_set_fresh (V : Type) (d : dict V) (k : Z) (v : V) :
  ~ In k (map fst d) -> dict_set d k v = d ++ [(k, v)].
Proof.
  induction d as [|[k0 v0] r IH]; simpl; intro H; [reflexivity|].
  destruct (Z.eqb_spec k0 k) as [->|Hk]; [exfalso; apply H; now left|].
  rewrite IH; [reflexivity|]. intro Hin. apply H. now right.
Qed.

Lemma dict_set_values (V : Type) (P : V -> Prop) (d : dict V) (k : Z) (v : V) :
  P v -> (forall item, In item d -> P (snd item)) ->
  forall item, In item (dict_set d k v) -> P (snd item).
Proof.
  intros Hv. induction d as [|[k0 v0] r IH]; simpl; intros Hd item Hin.
  - destruct Hin as [<-|[]]. exact Hv.
  - destruct (Z.eqb k0 k); simpl in Hin.
    + destruct Hin as [<-|Hin]; [exact Hv|]. apply Hd. now right.
    + destruct Hin as [<-|Hin]; [apply (Hd (k0, v0)); now left|].
      apply IH; [|assumption]. intros it Hit. apply Hd. now right.
Qed.

Lemma dict_get_del_other (V : Type) (d : dict V) (k k' : Z) :
  k <> k' -> dict_get (dict_del d k) k' = dict_get d k'.
Proof.
  intro Hne. unfold dict_del. induction d as [|[k0 v0] r IH]; simpl; [reflexivity|].
  destruct (Z.eqb_spec k0 k) as [->|Hk]; simpl.
  - destruct (Z.eqb_spec k k'); [contradiction|exact IH].
  - destruct (Z.eqb k0 k'); [reflexivity|exact IH].
Qed.

Lemma load_files_keys (files cache : dict ndarray) (k : Z) :
  In k (map fst (load_files files cache)) <->
  In k (map fst cache) \/ In k (map fst files).
Proof.
  revert cache. induction files as [|[sid emb] r IH]; intro cache; simpl; [intuition|].
  rewrite IH, dict_set_keys. intuition.
Qed.

Lemma load_files_NoDup (files cache : dict ndarray) :
  NoDup (map fst cache) -> NoDup (map fst (load_files files cache)).
Proof.
  revert cache. induction files as [|[sid emb] r IH]; intros cache H; simpl; [assumption|].
  apply IH. now apply dict_set_NoDup.
Qed.

Lemma load_files_fresh (files cache : dict ndarray) :
  NoDup (map fst (cache ++ files)) -> load_files files cache = cache ++ files.
Proof.
  revert cache. induction files as [|[sid emb] r IH]; intros cache H; simpl.
  - now rewrite app_nil_r.
  - assert (Hn : ~ In sid (map fst cache)).
    { rewrite map_app in H. simpl in H. apply NoDup_remove_2 in H.
      intro Hin. apply H. apply in_or_app. now left. }
    rewrite (dict_set_fresh _ cache sid emb Hn).
    rewrite IH; rewrite <- app_assoc; [reflexivity|exact H].
Qed.

Lemma load_rows_keys (rows cache : dict ndarray) (k : Z) :
  In k (map fst (load_rows rows cache)) ->
  In k (map fst cache) \/ In k (map fst rows).
Proof.
  revert cache. induction rows as [|[sid emb] r IH]; intro cache; simpl; [intuition|].
  intro H. apply IH in H as [H|H]; [|intuition].
  destruct (Nat.ltb 0 (List.length emb)); [|intuition].
  apply dict_set_keys in H. intuition.
Qed.

Lemma load_rows_NoDup (rows cache : dict ndarray) :
  NoDup (map fst cache) -> NoDup (map fst (load_rows rows cache)).
Proof.
  revert cache. induction rows as [|[sid emb] r IH]; intros cache H; simpl; [assumption|].
  apply IH. destruct (Nat.ltb 0 (List.length emb)); [now apply dict_set_NoDup|assumption].
Qed.

Lemma load_rows_nonempty (rows cache : dict ndarray) :
  (forall item, In item cache -> snd item <> []) ->
  forall item, In item (load_rows rows cache) -> snd item <> [].
Proof.
  revert cache. induction rows as [|[sid emb] r IH]; intros cache H; simpl; [assumption|].
  apply IH. destruct (Nat.ltb_spec 0 (List.length emb)) as [Hl|_]; [|assumption].
  apply (dict_set_values ndarray (fun v => v <> [])); [|assumption].
  intro He. subst emb. simpl in Hl. lia.
Qed.

Lemma compute_embedding_same (w w' : World) (s s' : FaceService) (img : Image) :
  _HAS_CV2 w' = _HAS_CV2 w -> has_nn s' = has_nn s ->
  _compute_embedding w' s' img = _compute_embedding w s img.
Proof. intros Hc Hn. unfold _compute_embedding. now rewrite Hc, Hn. Qed.

End StoreMore.

(** X6. Asking again about a frame gives the same verdict and leaves the
    service as the first call left it, whatever has happened to the
    embedding files and to the Supabase table in between: once the cache is
    filled, the stores are not read again. *)
Theorem predict_again_same_verdict
    (w w' : World) (s : FaceService) (img : Image) (tnn tfb : R) :
  _HAS_CV2 w' = _HAS_CV2 w ->
  predict_student_id w' (fst (predict_student_id w s img tnn tfb)) img tnn tfb
  = predict_student_id w s img tnn tfb
  /\ (_compute_embedding w s img <> None ->
      _emb_cache (fst (predict_student_id w s img tnn tfb)) <> None)
  /\ (_emb_cache s <> None ->
      predict_student_id w' s img tnn tfb = predict_student_id w s img tnn tfb).
Proof.
  intro Hcv. unfold predict_student_id.
  rewrite (compute_embedding_same w w' s s img Hcv eq_refl).
  destruct (_compute_embedding w s img) as [e|] eqn:E; simpl.
  - rewrite (compute_embedding_same w w' s (set_cache s (Some (load_cache w s))) img
               Hcv eq_refl), E.
    split; [reflexivity|split; [discriminate|]].
    intro Hc. unfold load_cache.
    destruct (_emb_cache s) as [c|]; [reflexivity|contradiction].
  - rewrite (compute_embedding_same w w' s s img Hcv eq_refl), E.
    split; [reflexivity|split; [contradiction|reflexivity]].
Qed.

Lemma predict_again_same_verdict_witness :
  let enrolled := set_emb_files campus_world [(1%Z, pixel_a)] in
  let first := predict_student_id enrolled (init false false) photo_a
                 THRESHOLD_NN THRESHOLD_FALLBACK in
  predict_student_id campus_world (fst first) photo_a THRESHOLD_NN THRESHOLD_FALLBACK
  = first.
Proof.
  apply (predict_again_same_verdict (set_emb_files campus_world [(1%Z, pixel_a)])
           campus_world (init false false) photo_a THRESHOLD_NN THRESHOLD_FALLBACK).
  reflexivity.
Defined.

(** X7. An enrollment that returns [False] has written nothing: the files,
    the Supabase table and the cache are as before. *)
Theorem failed_enroll_changes_nothing
    (w : World) (s : FaceService) (img_path : string) (student_id : Z) :
  snd (enroll_from_path w s img_path student_id) = false ->
  fst (enroll_from_path w s img_path student_id) = (w, s).
Proof.
  unfold enroll_from_path.
  destruct (orb (negb (_HAS_CV2 w)) (String.eqb img_path EmptyString)); [reflexivity|].
  destruct (imread w (fs_path w img_path)) as [img|]; [|reflexivity].
  destruct (_compute_embedding w s img) as [e|]; [|reflexivity].
  destruct (supabase s); [|discriminate].
  destruct (disk_ok w); simpl; destruct (remote_up w); discriminate.
Qed.

Lemma failed_enroll_changes_nothing_witness :
  enroll_from_path campus_world nn_service "/uploads/a.jpg" 1
  = (campus_world, nn_service, false).
Proof.
  pose proof (failed_enroll_changes_nothing campus_world nn_service "/uploads/a.jpg" 1
                eq_refl) as H.
  rewrite (surjective_pairing (enroll_from_path campus_world nn_service "/uploads/a.jpg" 1)).
  rewrite H. reflexivity.
Defined.

(** X8. An enrollment touches the stored embedding of its own student only:
    the file and the Supabase row of every other student are as before. *)
Theorem enroll_leaves_other_students
    (w : World) (s : FaceService) (img_path : string) (student_id other : Z) :
  other <> student_id ->
  dict_get (emb_files (fst (fst (enroll_from_path w s img_path student_id)))) other
  = dict_get (emb_files w) other
  /\ dict_get (face_embeddings (fst (fst (enroll_from_path w s img_path student_id)))) other
     = dict_get (face_embeddings w) other.
Proof.
  intro Hne. unfold enroll_from_path.
  destruct (orb (negb (_HAS_CV2 w)) (String.eqb img_path EmptyString)); [split; reflexivity|].
  destruct (imread w (fs_path w img_path)) as [img|]; [|split; reflexivity].
  destruct (_compute_embedding w s img) as [e|]; [|split; reflexivity].
  assert (Hs : student_id <> other) by congruence.
  destruct (disk_ok w), (supabase s); simpl; try destruct (remote_up w); simpl;
    rewrite ?dict_get_set_other by assumption; split; reflexivity.
Qed.

Lemma enroll_leaves_other_students_witness :
  let w := set_emb_files campus_world [(1%Z, pixel_a)] in
  dict_get (emb_files (fst (fst (enroll_from_path w (init false false)
                                   "/uploads/b.jpg" 2)))) 1
  = Some pixel_a.
Proof.
  apply (enroll_leaves_other_students (set_emb_files campus_world [(1%Z, pixel_a)])
           (init false false) "/uploads/b.jpg" 2 1).
  discriminate.
Defined.

(** X10. A cache that the service loads holds each student at most once and
    only students that a file or a Supabase row names; loaded from Supabase
    it holds no empty embedding. *)
Theorem loaded_cache_invariants (w : World) (s : FaceService) :
  _emb_cache s = None ->
  NoDup (map fst (load_cache w s))
  /\ (forall sid, In sid (map fst (load_cache w s)) ->
        In sid (map fst (emb_files w)) \/ In sid (map fst (face_embeddings w)))
  /\ (supabase s = true /\ remote_up w = true ->
      forall item, In item (load_cache w s) -> snd item <> []).
Proof.
  intro Hc. unfold load_cache. rewrite Hc.
  split; [|split].
  - destruct (supabase s), (remote_up w);
      first [apply load_rows_NoDup | apply load_files_NoDup]; constructor.
  - intros sid H.
    destruct (supabase s), (remote_up w);
      first [apply load_rows_keys in H as [[]|H]; now right
            |apply load_files_keys in H as [[]|H]; now left].
  - intros [-> ->]. apply load_rows_nonempty. intros item [].
Qed.

Lemma loaded_cache_invariants_witness :
  NoDup (map fst (load_cache
                    (set_emb_files campus_world
                       [(1%Z, pixel_a); (2%Z, pixel_b); (1%Z, pixel_b)])
                    (init false false))).
Proof.
  apply (loaded_cache_invariants
           (set_emb_files campus_world [(1%Z, pixel_a); (2%Z, pixel_b); (1%Z, pixel_b)])
           (init false false)).
  reflexivity.
Defined.

(** * More on the endpoint and the ledger *)

Section LedgerMore.

(** What the flow after the vote does to the database. *)
Lemma resolve_and_decide_effect (db : DB) (student_id : Z) (now : datetime) :
  (exists st sj subj,
      get_student db student_id = Some st /\
      existing db student_id sj now = None /\
      resolve_and_decide db student_id now =
        (add_attendance db
           (mkAttendance student_id (Some sj) (student_class_id st) now true "face"),
         AttendanceMarked student_id (student_name st) sj (subject_name subj)))
  \/
  (fst (resolve_and_decide db student_id now) = db /\
   forall a b c d, snd (resolve_and_decide db student_id now) <> AttendanceMarked a b c d).
Proof.
  unfold resolve_and_decide.
  destruct (get_student db student_id) as [st|]; [|right; split; [reflexivity|discriminate]].
  destruct (resolve db student_id now) as [slot|]; simpl;
    [|right; split; [reflexivity|discriminate]].
  destruct (get_subject db (st_subject_id slot)) as [subj|];
    [|right; split; [reflexivity|discriminate]].
  destruct (Z.eqb (st_subject_id slot) 0); [right; split; [reflexivity|discriminate]|].
  destruct (existing db student_id (st_subject_id slot) now) eqn:E;
    [right; split; [reflexivity|discriminate]|].
  left. exists st, (st_subject_id slot), subj. auto.
Qed.

Lemma get_student_pk (db : DB) (pk : Z) (st : Student) :
  get_student db pk = Some st -> student_pk st = pk /\ In st (students db).
Proof.
  unfold get_student. intro H. apply find_some in H as [Hin Hpk].
  apply Z.eqb_eq in Hpk. auto.
Qed.

End LedgerMore.

(** X12. The endpoint writes to the ledger only when it answers "attendance
    marked", and then exactly one record: that of the student and the
    subject of the answer, at the time of the request, present, by face, and
    only when the ledger held no record of that student for that subject on
    that day.  In every other case the database is as before; the students,
    the subjects and the timetable are never changed, and a request that is
    not authorized does not reach the face service. *)
Theorem recognize_ledger_effect
    (authorized : bool) (w : World) (s : FaceService) (db : DB)
    (files : list Upload) (now : datetime) :
  let r := attendance_recognize authorized w s db files now in
  ((exists sid name sj subj cls,
       snd r = AttendanceMarked sid name sj subj /\
       count_records db sid sj (toordinal now) = 0%nat /\
       snd (fst r) =
         add_attendance db (mkAttendance sid (Some sj) cls now true "face"))
   \/ (snd (fst r) = db /\ forall a b c d, snd r <> AttendanceMarked a b c d))
  /\ students (snd (fst r)) = students db
  /\ subjects (snd (fst r)) = subjects db
  /\ student_timetables (snd (fst r)) = student_timetables db
  /\ (authorized = false -> r = (s, db, Unauthorized)).
Proof.
  cbv zeta.
  assert (G :
    ((exists sid name sj subj cls,
       snd (attendance_recognize authorized w s db files now)
         = AttendanceMarked sid name sj subj /\
       count_records db sid sj (toordinal now) = 0%nat /\
       snd (fst (attendance_recognize authorized w s db files now)) =
         add_attendance db (mkAttendance sid (Some sj) cls now true "face"))
     \/ (snd (fst (attendance_recognize authorized w s db files now)) = db /\
         forall a b c d,
           snd (attendance_recognize authorized w s db files now)
           <> AttendanceMarked a b c d))).
  { unfold attendance_recognize.
    destruct authorized; cbn [negb]; cbv iota;
      [|right; split; [reflexivity|discriminate]].
    destruct files as [|f files]; [right; split; [reflexivity|discriminate]|].
    destruct (_HAS_CV2 w); cbn [negb]; cbv iota;
      [|right; split; [reflexivity|discriminate]].
    destruct (collect_preds w s (f :: files) []) as [s' [preds|]];
      [|right; split; [reflexivity|discriminate]].
    destruct (majority_vote preds) as [| |sid|];
      try (right; split; [reflexivity|discriminate]).
    destruct (resolve_and_decide_effect db sid now)
      as [(st & sj & subj & Hst & Hex & Hr)|[Hdb Hne]].
    - left. rewrite Hr. simpl.
      exists sid, (student_name st), sj, (subject_name subj), (student_class_id st).
      split; [reflexivity|split; [|reflexivity]].
      now apply existing_count.
    - right. destruct (resolve_and_decide db sid now) as [db' resp].
      simpl in *. split; [assumption|exact Hne]. }
  split; [exact G|].
  assert (E : snd (fst (attendance_recognize authorized w s db files now)) = db \/
              exists a, snd (fst (attendance_recognize authorized w s db files now))
                        = add_attendance db a).
  { destruct G as [(sid & name & sj & subj & cls & _ & _ & H)|[H _]];
      [right; eexists; exact H|now left]. }
  split; [|split; [|split]].
  - destruct E as [->|[a ->]]; reflexivity.
  - destruct E as [->|[a ->]]; reflexivity.
  - destruct E as [->|[a ->]]; reflexivity.
  - intros ->. reflexivity.
Qed.

(** X13. Deleting a profile removes the student, the timetable rows and the
    attendance records of that student, and touches no other student:
    another student keeps the row, the records, the resolved slot, the
    embedding file and the Supabase row. *)
Theorem delete_profile_effect
    (w w' : World) (app_supabase : bool) (db db' : DB) (student_id : Z) :
  delete_student_profile w app_supabase db student_id = Some (w', db') ->
  get_student db' student_id = None
  /\ (forall a, In a (attendance db') -> att_student_id a <> student_id)
  /\ (forall r, In r (student_timetables db') -> st_student_id r <> student_id)
  /\ (forall other, other <> student_id ->
        get_student db' other = get_student db other
        /\ (forall sj date, count_records db' other sj date = count_records db other sj date)
        /\ (forall now, resolve db' other now = resolve db other now)
        /\ dict_get (emb_files w') other = dict_get (emb_files w) other
        /\ dict_get (face_embeddings w') other = dict_get (face_embeddings w) other).
Proof.
  unfold delete_student_profile.
  destruct (get_student db student_id) as [st|]; [|discriminate].
  intro H. injection H as <- <-.
  split; [|split; [|split]].
  - unfold get_student. simpl.
    destruct (find _ (filter _ (students db))) as [x|] eqn:E; [|reflexivity].
    apply find_some in E as [Hin Hpk]. apply filter_In in Hin as [_ Hf].
    rewrite Hpk in Hf. discriminate.
  - simpl. intros a Ha. apply filter_In in Ha as [_ Hf].
    intro Heq. rewrite Heq, Z.eqb_refl in Hf. discriminate.
  - simpl. intros r Hr. apply filter_In in Hr as [_ Hf].
    intro Heq. rewrite Heq, Z.eqb_refl in Hf. discriminate.
  - intros other Hne. split; [|split; [|split; [|split]]].
    + unfold get_student. simpl.
      induction (students db) as [|x l IH]; simpl; [reflexivity|].
      destruct (Z.eqb_spec (student_pk x) student_id) as [Hx|Hx]; simpl.
      * destruct (Z.eqb_spec (student_pk x) other); [congruence|exact IH].
      * destruct (Z.eqb (student_pk x) other); [reflexivity|exact IH].
    + intros sj date. unfold count_records. simpl. f_equal.
      induction (attendance db) as [|a l IH]; simpl; [reflexivity|].
      destruct (Z.eqb_spec (att_student_id a) student_id) as [Ha|Ha]; simpl.
      * rewrite IH. unfold is_record.
        destruct (Z.eqb_spec (att_student_id a) other); [congruence|reflexivity].
      * rewrite IH. reflexivity.
    + intro now. unfold resolve, timetable_rows. simpl. do 2 f_equal.
      induction (student_timetables db) as [|r l IH]; simpl; [reflexivity|].
      destruct (Z.eqb_spec (st_student_id r) student_id) as [Hr|Hr]; simpl.
      * rewrite IH.
        destruct (Z.eqb_spec (st_student_id r) other); [congruence|reflexivity].
      * rewrite IH. reflexivity.
    + unfold delete_embedding.
      assert (Hs : student_id <> other) by congruence.
      destruct app_supabase; simpl; [destruct (remote_up w); simpl|];
        now apply dict_get_del_other.
    + unfold delete_embedding.
      assert (Hs : student_id <> other) by congruence.
      destruct app_supabase; simpl; [destruct (remote_up w); simpl|];
        try reflexivity.
      now apply dict_get_del_other.
Qed.

Lemma delete_profile_effect_witness :
  exists w' db',
    delete_student_profile
      (set_emb_files campus_world [(1%Z, pixel_a); (2%Z, pixel_b)]) false
      monday_db 1 = Some (w', db')
    /\ get_student db' 1 = None
    /\ dict_get (emb_files w') 2 = Some pixel_b.
Proof.
  eexists. eexists. split; [reflexivity|].
  pose proof (delete_profile_effect
                (set_emb_files campus_world [(1%Z, pixel_a); (2%Z, pixel_b)]) _
                false monday_db _ 1 eq_refl) as (H1 & _ & _ & H4).
  split; [exact H1|].
  destruct (H4 2%Z) as (_ & _ & _ & Hf & _); [discriminate|].
  rewrite Hf. reflexivity.
Defined.

Section DeletedStudent.

Lemma resolve_and_decide_student (db : DB) (student_id : Z) (now : datetime)
    (x : Z) (name : string) (sj : Z) (subj : string) :
  snd (resolve_and_decide db student_id now) = AttendanceMarked x name sj subj \/
  snd (resolve_and_decide db student_id now) = AttendanceAlreadyMarked x name sj subj ->
  x = student_id /\ get_student db student_id <> None.
Proof.
  unfold resolve_and_decide.
  destruct (get_student db student_id) as [st|]; [|intros [H|H]; discriminate].
  destruct (resolve db student_id now) as [slot|]; simpl; [|intros [H|H]; discriminate].
  destruct (get_subject db (st_subject_id slot)) as [sb|]; [|intros [H|H]; discriminate].
  destruct (Z.eqb (st_subject_id slot) 0); [intros [H|H]; discriminate|].
  destruct (existing db student_id (st_subject_id slot) now); simpl;
    intros [H|H]; try discriminate; injection H as <- _ _ _; split; congruence.
Qed.

Lemma recognize_response (authorized : bool) (w : World) (s : FaceService) (db : DB)
    (files : list Upload) (now : datetime) :
  (snd (fst (attendance_recognize authorized w s db files now)) = db /\
   response_subject (snd (attendance_recognize authorized w s db files now)) = None)
  \/ exists sid,
       snd (fst (attendance_recognize authorized w s db files now))
         = fst (resolve_and_decide db sid now) /\
       snd (attendance_recognize authorized w s db files now)
         = snd (resolve_and_decide db sid now).
Proof.
  unfold attendance_recognize.
  destruct authorized; cbn [negb]; cbv iota; [|left; split; reflexivity].
  destruct files as [|f files]; [left; split; reflexivity|].
  destruct (_HAS_CV2 w); cbn [negb]; cbv iota; [|left; split; reflexivity].
  destruct (collect_preds w s (f :: files) []) as [s' [preds|]];
    [|left; split; reflexivity].
  destruct (majority_vote preds) as [| |sid|]; try (left; split; reflexivity).
  right. exists sid. destruct (resolve_and_decide db sid now). split; reflexivity.
Qed.

Lemma delete_profile_student_gone
    (w w' : World) (app_supabase : bool) (db db' : DB) (student_id : Z) :
  delete_student_profile w app_supabase db student_id = Some (w', db') ->
  get_student db' student_id = None /\
  forall a, In a (attendance db') -> att_student_id a <> student_id.
Proof.
  unfold delete_student_profile.
  destruct (get_student db student_id) as [st|]; [|discriminate].
  intro H. injection H as <- <-. split.
  - unfold get_student. simpl.
    destruct (find _ (filter _ (students db))) as [x|] eqn:E; [|reflexivity].
    apply find_some in E as [Hin Hpk]. apply filter_In in Hin as [_ Hf].
    rewrite Hpk in Hf. discriminate.
  - simpl. intros a Ha. apply filter_In in Ha as [_ Hf].
    intro Heq. rewrite Heq, Z.eqb_refl in Hf. discriminate.
Qed.

End DeletedStudent.

(** X14. Once a profile is deleted, no recognition request marks that student
    present or reports the student's attendance, whatever the face service
    still holds in its cache: a vote for the deleted student is answered
    "student not found", and no record of the student enters the ledger. *)
Theorem deleted_student_never_marked
    (w w' w0 : World) (app_supabase : bool) (db db' : DB) (student_id : Z)
    (s : FaceService) (files : list Upload) (now : datetime) :
  delete_student_profile w app_supabase db student_id = Some (w', db') ->
  resolve_and_decide db' student_id now = (db', StudentNotFound)
  /\ (forall name sj subj,
        snd (attendance_recognize true w0 s db' files now)
          <> AttendanceMarked student_id name sj subj /\
        snd (attendance_recognize true w0 s db' files now)
          <> AttendanceAlreadyMarked student_id name sj subj)
  /\ (forall a, In a (attendance (snd (fst (attendance_recognize true w0 s db' files now)))) ->
        att_student_id a <> student_id).
Proof.
  intro Hdel. destruct (delete_profile_student_gone _ _ _ _ _ _ Hdel) as [Hgone Hatt].
  split; [|split].
  - unfold resolve_and_decide. now rewrite Hgone.
  - intros name sj subj.
    destruct (recognize_response true w0 s db' files now) as [[_ Hn]|(sid & _ & Hr)].
    + split; intro H; rewrite H in Hn; discriminate.
    + rewrite Hr. split; intro H.
      * destruct (resolve_and_decide_student db' sid now _ _ _ _ (or_introl H)) as [<- Hs].
        contradiction.
      * destruct (resolve_and_decide_student db' sid now _ _ _ _ (or_intror H)) as [<- Hs].
        contradiction.
  - intros a Ha.
    destruct (recognize_response true w0 s db' files now) as [[Hd _]|(sid & Hd & _)];
      rewrite Hd in Ha; [now apply Hatt|].
    destruct (resolve_and_decide_effect db' sid now)
      as [(st & sj & subj & Hst & _ & Hr)|[Hdb _]].
    + rewrite Hr in Ha. simpl in Ha. apply in_app_or in Ha as [Ha|[<-|[]]];
        [now apply Hatt|].
      simpl. intros ->. congruence.
    + rewrite Hdb in Ha. now apply Hatt.
Qed.

Lemma deleted_student_never_marked_witness :
  let db' := mkDB [] [mkSubject 1 "Subj1"; mkSubject 2 "Subj2"] [] [] in
  snd (attendance_recognize true bare_world nn_service db'
         [Bytes (Some good_frame)] (monday_at 9 30))
  <> AttendanceMarked 1 "A" 1 "Subj1".
Proof.
  apply (deleted_student_never_marked bare_world bare_world bare_world false monday_db
           (mkDB [] [mkSubject 1 "Subj1"; mkSubject 2 "Subj2"] [] []) 1
           nn_service [Bytes (Some good_frame)] (monday_at 9 30)).
  reflexivity.
Defined.

(** * The timetable form and the lookup *)

Section TimetableAdd.

Lemma current_slot_filter (rows : list StudentTimetable) (now_str : string) :
  current_slot rows now_str = hd_error (filter (in_slot now_str) rows).
Proof.
  induction rows as [|r rows IH]; simpl; [reflexivity|].
  destruct (in_slot now_str r); [reflexivity|exact IH].
Qed.

Lemma insert_by_start_head (r : StudentTimetable) (l : list StudentTimetable) :
  (forall x, In x l -> String.leb (start_time r) (start_time x) = true) ->
  insert_by_start r l = r :: l.
Proof.
  destruct l as [|y l]; simpl; intro H; [reflexivity|].
  now rewrite (H y (or_introl eq_refl)).
Qed.

Lemma filter_insert_by_start (p : StudentTimetable -> bool) (r : StudentTimetable)
    (l : list StudentTimetable) :
  ordered l ->
  filter p (insert_by_start r l) =
  if p r then insert_by_start r (filter p l) else filter p l.
Proof.
  induction 1 as [|y l Hy Hl IH]; simpl.
  - destruct (p r); reflexivity.
  - destruct (String.leb (start_time r) (start_time y)) eqn:E; simpl.
    + destruct (p r) eqn:Hr; [|reflexivity].
      destruct (p y) eqn:Hp; simpl; [now rewrite E|].
      rewrite insert_by_start_head; [reflexivity|].
      intros x Hx. apply filter_In in Hx as [Hx _].
      eapply string_leb_trans; [exact E|now apply Hy].
    + destruct (p y) eqn:Hp; simpl; rewrite IH; destruct (p r); simpl;
        rewrite ?E; reflexivity.
Qed.

Lemma filter_order_by_start_time (p : StudentTimetable -> bool)
    (l : list StudentTimetable) :
  filter p (order_by_start_time l) = order_by_start_time (filter p l).
Proof.
  induction l as [|x l IH]; simpl; [reflexivity|].
  rewrite filter_insert_by_start by apply order_by_start_time_ordered.
  rewrite IH. destruct (p x); reflexivity.
Qed.

(** The lookup reads only the rows of the student and the weekday that hold
    the clock string. *)
Lemma resolve_filter (db : DB) (student_id : Z) (now : datetime) :
  resolve db student_id now =
  hd_error (order_by_start_time
    (filter (in_slot (strftime_HM now))
       (filter (fun r => andb (Z.eqb (st_student_id r) student_id)
                              (Z.eqb (st_weekday r) (weekday now)))
               (student_timetables db)))).
Proof.
  unfold resolve, timetable_rows.
  now rewrite current_slot_filter, filter_order_by_start_time.
Qed.

End TimetableAdd.

(** X15. A timetable entry added through the form changes what the lookup
    finds only for its student, on its weekday, at the times inside it: any
    other lookup gives what it gave before.  At a time inside the new entry
    the lookup finds a slot that starts no later than the entry, the entry
    itself or one that was there; the form refuses no overlap. *)
Theorem timetable_add_effect
    (session_student_id : option Z) (commit_ok : bool) (db : DB)
    (wd subject_id : Z) (start_t end_t : string) :
  snd (student_timetable_add session_student_id commit_ok db wd subject_id start_t end_t)
    = EntryAdded ->
  exists sid,
    session_student_id = Some sid /\
    let db' := fst (student_timetable_add session_student_id commit_ok db wd subject_id
                      start_t end_t) in
    let entry := mkStudentTimetable sid subject_id wd start_t end_t in
    student_timetables db' = student_timetables db ++ [entry]
    /\ attendance db' = attendance db
    /\ (forall other now,
          other <> sid \/ weekday now <> wd \/ in_slot (strftime_HM now) entry = false ->
          resolve db' other now = resolve db other now)
    /\ (forall now,
          weekday now = wd /\ in_slot (strftime_HM now) entry = true ->
          exists r, resolve db' sid now = Some r /\
                    String.leb (start_time r) start_t = true).
Proof.
  unfold student_timetable_add.
  destruct session_student_id as [sid|]; [|discriminate].
  destruct (Z.eqb sid 0); [discriminate|].
  destruct (get_student db sid) as [st|] eqn:Hst; [|discriminate].
  destruct commit_ok; [|discriminate].
  intros _. exists sid. split; [reflexivity|].
  apply get_student_pk in Hst as [Hpk _]. rewrite Hpk.
  cbv zeta. cbn [fst student_timetables attendance].
  split; [reflexivity|split; [reflexivity|split]].
  - intros other now Hor. rewrite !resolve_filter.
    cbn [student_timetables]. rewrite filter_app. cbn [filter st_student_id st_weekday].
    destruct (Z.eqb_spec sid other) as [Hs|Hs]; cbn [andb].
    + destruct (Z.eqb_spec wd (weekday now)) as [Hw|Hw].
      * destruct Hor as [H|[H|H]]; [congruence|congruence|].
        rewrite filter_app. cbn [filter]. rewrite H. now rewrite !app_nil_r.
      * now rewrite app_nil_r.
    + now rewrite app_nil_r.
  - intros now [Hw Hin].
    destruct (resolve (mkDB (students db) (subjects db)
                         (student_timetables db ++
                          [mkStudentTimetable sid subject_id wd start_t end_t])
                         (attendance db)) sid now) as [r|] eqn:E.
    + exists r. split; [reflexivity|].
      unfold resolve in E.
      apply current_slot_Some in E; [|apply order_by_start_time_ordered].
      destruct E as (_ & _ & Hmin).
      apply (Hmin (mkStudentTimetable sid subject_id wd start_t end_t)); [|exact Hin].
      apply timetable_rows_In. cbn [student_timetables st_student_id st_weekday].
      split; [apply in_or_app; right; now left|split; [reflexivity|now symmetry]].
    + exfalso. unfold resolve in E. rewrite current_slot_None in E.
      rewrite E in Hin; [discriminate|].
      apply timetable_rows_In. cbn [student_timetables st_student_id st_weekday].
      split; [apply in_or_app; right; now left|split; [reflexivity|now symmetry]].
Qed.

Lemma timetable_add_effect_witness :
  resolve (fst (student_timetable_add (Some 1%Z) true monday_db 0 2 "09:30" "10:30"))
    1 (monday_at 11 0)
  = resolve monday_db 1 (monday_at 11 0).
Proof.
  destruct (timetable_add_effect (Some 1%Z) true monday_db 0 2 "09:30" "10:30" eq_refl)
    as (sid & Hs & H).
  injection Hs as <-. cbv zeta in H. destruct H as (_ & _ & Hiso & _).
  apply Hiso. right. right. reflexivity.
Defined.

(** * Manual attendance and the dashboard *)

Section Manual.

Lemma truthy_Some (x : option Z) :
  truthy x = true <-> exists v, x = Some v /\ v <> 0%Z.
Proof.
  destruct x as [v|]; simpl.
  - rewrite negb_true_iff, Z.eqb_neq. split.
    + intro H. now exists v.
    + intros (v' & Hv & Hn). now injection Hv as ->.
  - split; [discriminate|]. intros (v & H & _). discriminate.
Qed.

Lemma filter_length_app (A : Type) (p : A -> bool) (l : list A) (a : A) :
  List.length (filter p (l ++ [a])) =
  (List.length (filter p l) + if p a then 1 else 0)%nat.
Proof. rewrite filter_app, length_app. simpl. destruct (p a); reflexivity. Qed.

Lemma filter_length_all (A : Type) (p q : A -> bool) (l : list A) :
  (forall a, In a l -> q a = true) ->
  List.length (filter (fun a => andb (p a) (q a)) l) = List.length (filter p l).
Proof.
  induction l as [|a l IH]; simpl; intro H; [reflexivity|].
  rewrite (H a (or_introl eq_refl)), andb_true_r.
  destruct (p a); simpl; rewrite IH; auto.
Qed.

End Manual.

(** X16. Manual attendance succeeds exactly for an authorized request with a
    student id and a subject id other than 0, a day field, and a commit that
    goes through.  It then appends one record of the student for the subject
    at the time of the request, present, without a class, and does so even
    when the ledger already holds one for that day: the count goes up by
    one.  The value of the day field changes nothing, and a request that
    does not succeed leaves the ledger as it is. *)
Theorem manual_attendance_effect
    (authorized commit_ok : bool) (db : DB) (student_id day subject_id : option Z)
    (now : datetime) :
  let r := manual_attendance authorized commit_ok db student_id day subject_id now in
  (snd r = MarkedSuccessfully <->
     authorized = true /\ commit_ok = true /\ truthy student_id = true /\
     day <> None /\ truthy subject_id = true)
  /\ (snd r = MarkedSuccessfully ->
      exists sid sj,
        student_id = Some sid /\ subject_id = Some sj /\
        fst r = add_attendance db (mkAttendance sid (Some sj) None now true "manual") /\
        count_records (fst r) sid sj (toordinal now)
        = S (count_records db sid sj (toordinal now)))
  /\ (snd r <> MarkedSuccessfully -> fst r = db)
  /\ (forall day', (day = None <-> day' = None) ->
        manual_attendance authorized commit_ok db student_id day' subject_id now = r).
Proof.
  cbv zeta. unfold manual_attendance.
  destruct authorized; cbn [negb]; cbv iota.
  2:{ split; [split; [discriminate|intros (H & _); discriminate]|].
      split; [discriminate|split; reflexivity]. }
  destruct student_id as [sid|].
  2:{ split; [split; [discriminate|intros (_ & _ & H & _); discriminate]|].
      split; [discriminate|split; reflexivity]. }
  destruct day as [d|].
  2:{ split; [split; [discriminate|intros (_ & _ & _ & H & _); contradiction]|].
      split; [discriminate|split; [reflexivity|]].
      intros day' Hd. destruct day' as [d'|]; [|reflexivity].
      discriminate (proj1 Hd eq_refl). }
  destruct subject_id as [sj|].
  2:{ split; [split; [discriminate|intros (_ & _ & _ & _ & H); discriminate]|].
      split; [discriminate|split; [reflexivity|]].
      intros day' Hd. destruct day'; reflexivity. }
  assert (Hday : forall day' : option Z, (Some d = None <-> day' = None) ->
                 exists d', day' = Some d').
  { intros [d'|] Hd; [now exists d'|]. discriminate (proj2 Hd eq_refl). }
  destruct (andb (truthy (Some sid)) (truthy (Some sj))) eqn:Ht.
  - apply andb_true_iff in Ht as [Ht1 Ht2].
    destruct commit_ok; simpl fst; simpl snd.
    + split; [split; [intros _; repeat split; auto; discriminate|reflexivity]|].
      split.
      * intros _. exists sid, sj. repeat split.
        rewrite count_records_add. unfold is_record. simpl.
        rewrite !Z.eqb_refl. simpl. lia.
      * split; [congruence|].
        intros day' Hd. destruct (Hday day' Hd) as [d' ->]. reflexivity.
    + split; [split; [discriminate|intros (_ & H & _); discriminate]|].
      split; [discriminate|split; [reflexivity|]].
      intros day' Hd. destruct (Hday day' Hd) as [d' ->]. reflexivity.
  - simpl fst; simpl snd.
    split.
    + split; [discriminate|]. intros (_ & _ & H1 & _ & H2).
      rewrite H1, H2 in Ht. discriminate.
    + split; [discriminate|split; [reflexivity|]].
      intros day' Hd. destruct (Hday day' Hd) as [d' ->]. reflexivity.
Qed.

(** X17. After a manual mark, the face flow of the same day that resolves to
    the same subject for the same student answers "attendance already
    marked" and leaves the ledger as it is. *)
Theorem manual_then_face_already_marked
    (db : DB) (sid sj : Z) (day : option Z) (now1 now2 : datetime) :
  snd (manual_attendance true true db (Some sid) day (Some sj) now1) = MarkedSuccessfully ->
  toordinal now1 = toordinal now2 ->
  let db1 := fst (manual_attendance true true db (Some sid) day (Some sj) now1) in
  response_subject (snd (resolve_and_decide db1 sid now2)) = Some sj ->
  fst (resolve_and_decide db1 sid now2) = db1
  /\ already_marked (snd (resolve_and_decide db1 sid now2)) = true.
Proof.
  intros Hm Hdate db1 Hr.
  assert (Hdb1 : db1 = add_attendance db (mkAttendance sid (Some sj) None now1 true "manual")).
  { unfold db1, manual_attendance in *. cbn [negb] in *. cbv iota in *.
    destruct day as [d|]; [|discriminate].
    destruct (andb (truthy (Some sid)) (truthy (Some sj))); [reflexivity|discriminate]. }
  assert (Hex : existing db1 sid sj now2 <> None).
  { intro Hn. apply existing_count in Hn.
    rewrite Hdb1, count_records_add, <- Hdate in Hn.
    unfold is_record in Hn. simpl in Hn. rewrite !Z.eqb_refl in Hn. simpl in Hn. lia. }
  destruct (resolve_and_decide_subject db1 sid sj now2 Hr) as (st & sb & [[E _]|[_ R]]);
    [contradiction|].
  rewrite R. split; reflexivity.
Qed.

Lemma manual_then_face_already_marked_witness :
  let db1 := fst (manual_attendance true true monday_db (Some 1%Z) (Some 0%Z) (Some 1%Z)
                    (monday_at 8 0)) in
  resolve_and_decide db1 1 (monday_at 9 30)
  = (db1, AttendanceAlreadyMarked 1 "A" 1 "Subj1").
Proof.
  pose proof (manual_then_face_already_marked monday_db 1 1 (Some 0%Z)
                (monday_at 8 0) (monday_at 9 30) eq_refl eq_refl eq_refl) as [H1 H2].
  cbv zeta.
  rewrite (surjective_pairing (resolve_and_decide _ 1 (monday_at 9 30))).
  rewrite H1. reflexivity.
Defined.

(** X18. Both endpoints write present records only: a ledger whose records
    are all present stays so through a recognition request and through a
    manual mark, and on such a ledger the dashboard shows no absence, for
    any student and any subject. *)
Theorem ledger_records_all_present
    (db : DB) (authorized commit_ok : bool) (w : World) (s : FaceService)
    (files : list Upload) (now : datetime)
    (student_id day subject_id : option Z) :
  (forall a, In a (attendance db) -> att_is_present a = true) ->
  (forall a, In a (attendance (snd (fst (attendance_recognize authorized w s db files now))))
             -> att_is_present a = true)
  /\ (forall a,
        In a (attendance (fst (manual_attendance authorized commit_ok db
                                 student_id day subject_id now)))
        -> att_is_present a = true)
  /\ (forall sid, snd (dashboard_overall db sid) = 0%Z)
  /\ (forall sid sj, snd (dashboard_subject db sid sj) = 0%Z).
Proof.
  intro Hall. split; [|split; [|split]].
  - intros a Ha.
    destruct (recognize_response authorized w s db files now) as [[Hd _]|(sid & Hd & _)];
      rewrite Hd in Ha; [now apply Hall|].
    destruct (resolve_and_decide_effect db sid now)
      as [(st & sj & subj & _ & _ & Hr)|[Hdb _]].
    + rewrite Hr in Ha. simpl in Ha.
      apply in_app_or in Ha as [Ha|[<-|[]]]; [now apply Hall|reflexivity].
    + rewrite Hdb in Ha. now apply Hall.
  - intros a Ha. unfold manual_attendance in Ha.
    destruct (negb authorized); [now apply Hall|].
    destruct student_id as [sid|]; [|now apply Hall].
    destruct day as [d|]; [|now apply Hall].
    destruct subject_id as [sj|]; [|now apply Hall].
    destruct (andb (truthy (Some sid)) (truthy (Some sj))); [|now apply Hall].
    destruct commit_ok; [|now apply Hall].
    simpl in Ha. apply in_app_or in Ha as [Ha|[<-|[]]]; [now apply Hall|reflexivity].
  - intro sid. unfold dashboard_overall. cbn [snd].
    rewrite (filter_length_all _ (fun a => Z.eqb (att_student_id a) sid) att_is_present
               (attendance db) Hall).
    lia.
  - intros sid sj. unfold dashboard_subject. cbn [snd].
    assert (E : forall l : list Attendance,
      (forall a, In a l -> att_is_present a = true) ->
      List.length (filter (fun a => andb (Z.eqb (att_student_id a) sid)
                                        (andb (of_subject sj a) (att_is_present a))) l)
      = List.length (filter (fun a => andb (Z.eqb (att_student_id a) sid)
                                          (of_subject sj a)) l)).
    { induction l as [|a l IH]; simpl; intro H; [reflexivity|].
      rewrite (H a (or_introl eq_refl)), andb_true_r.
      destruct (andb (Z.eqb (att_student_id a) sid) (of_subject sj a)); simpl;
        rewrite IH; auto. }
    rewrite (E _ Hall). lia.
Qed.

Lemma ledger_records_all_present_witness :
  snd (dashboard_overall
         (snd (fst (attendance_recognize true bare_world nn_service monday_db
                      [Bytes (Some good_frame)] (monday_at 9 30)))) 1) = 0%Z.
Proof.
  assert (H0 : forall a, In a (attendance monday_db) -> att_is_present a = true)
    by (intros a []).
  pose proof (ledger_records_all_present monday_db true true bare_world nn_service
                [Bytes (Some good_frame)] (monday_at 9 30) None None None H0) as (H1 & _).
  apply (ledger_records_all_present
           (snd (fst (attendance_recognize true bare_world nn_service monday_db
                        [Bytes (Some good_frame)] (monday_at 9 30))))
           true true bare_world nn_service [] (monday_at 9 30) None None None H1).
Defined.

(** X19. A recognition that marks attendance shows on the dashboard as one
    more record and one more presence for that student, overall and for that
    subject; the counts of every other student and of the student's other
    subjects are as before. *)
Theorem dashboard_after_mark
    (db : DB) (student_id : Z) (now : datetime)
    (name : string) (sj : Z) (subj : string) :
  snd (resolve_and_decide db student_id now) = AttendanceMarked student_id name sj subj ->
  let db' := fst (resolve_and_decide db student_id now) in
  (let '(total, present, absent) := dashboard_overall db student_id in
   dashboard_overall db' student_id = ((total + 1)%Z, (present + 1)%Z, absent))
  /\ (let '(total, present, absent) := dashboard_subject db student_id sj in
      dashboard_subject db' student_id sj = ((total + 1)%Z, (present + 1)%Z, absent))
  /\ (forall other, other <> student_id ->
        dashboard_overall db' other = dashboard_overall db other)
  /\ (forall sj', sj' <> sj ->
        dashboard_subject db' student_id sj' = dashboard_subject db student_id sj').
Proof.
  intros Hr db'.
  destruct (resolve_and_decide_effect db student_id now)
    as [(st & sj0 & sb & _ & _ & R)|[_ Hne]]; [|now apply Hne in Hr].
  assert (sj0 = sj) by (rewrite R in Hr; simpl in Hr; now injection Hr).
  subst sj0. unfold db'. rewrite R. cbn [fst].
  assert (T : forall p : Attendance -> bool,
    Z.of_nat (List.length (filter p (attendance (add_attendance db
      (mkAttendance student_id (Some sj) (student_class_id st) now true "face")))))
    = (Z.of_nat (List.length (filter p (attendance db)))
       + if p (mkAttendance student_id (Some sj) (student_class_id st) now true "face")
         then 1 else 0)%Z).
  { intro p. unfold add_attendance. cbn [attendance]. rewrite filter_length_app.
    destruct (p _); lia. }
  unfold dashboard_overall, dashboard_subject. rewrite !T. unfold of_subject.
  cbn [att_student_id att_subject_id att_is_present].
  rewrite !Z.eqb_refl. cbn [andb].
  split; [f_equal; lia|].
  split; [f_equal; lia|].
  split.
  - intros other Hne. rewrite !T. cbn [att_student_id att_is_present].
    destruct (Z.eqb_spec student_id other); [congruence|].
    cbn [andb]. rewrite !Z.add_0_r. reflexivity.
  - intros sj' Hne. rewrite !T. cbn [att_student_id att_subject_id att_is_present].
    destruct (Z.eqb_spec sj sj'); [congruence|].
    rewrite Z.eqb_refl. cbn [andb]. rewrite !Z.add_0_r. reflexivity.
Qed.

Lemma dashboard_after_mark_witness :
  dashboard_overall (fst (resolve_and_decide monday_db 1 (monday_at 9 30))) 1
  = (1%Z, 1%Z, 0%Z).
Proof.
  pose proof (dashboard_after_mark monday_db 1 (monday_at 9 30) "A" 1 "Subj1" eq_refl)
    as (H & _).
  exact H.
Defined.

(** * The scripts *)

Section UploadScript.

Lemma upload_embeddings_other (files : dict ndarray) (ok : Z -> bool) (sid : Z) :
  ~ In sid (map fst files) \/ ok sid = false ->
  forall table count,
    dict_get (fst (upload_embeddings files ok table count)) sid = dict_get table sid.
Proof.
  induction files as [|[k emb] r IH]; intros Hor table count; simpl; [reflexivity|].
  assert (Hr : ~ In sid (map fst r) \/ ok sid = false).
  { destruct Hor as [H|H]; [left|now right]. intro Hin. apply H. now right. }
  destruct (ok k) eqn:Hk.
  - rewrite (IH Hr). apply dict_get_set_other.
    intros ->. destruct Hor as [H|H]; [apply H; now left|congruence].
  - apply (IH Hr).
Qed.

Lemma upload_embeddings_count (files : dict ndarray) (ok : Z -> bool) :
  forall table count,
    snd (upload_embeddings files ok table count) =
    (count + List.length (filter (fun f => ok (fst f)) files))%nat.
Proof.
  induction files as [|[k emb] r IH]; intros table count; simpl; [lia|].
  destruct (ok k); rewrite IH; simpl; lia.
Qed.

Lemma upload_embeddings_NoDup (files : dict ndarray) (ok : Z -> bool) :
  forall table count,
    NoDup (map fst table) ->
    NoDup (map fst (fst (upload_embeddings files ok table count))).
Proof.
  induction files as [|[k emb] r IH]; intros table count H; simpl; [assumption|].
  destruct (ok k); apply IH; [now apply dict_set_NoDup|assumption].
Qed.

Lemma upload_embeddings_all (files : dict ndarray) (ok : Z -> bool) :
  (forall item, In item files -> ok (fst item) = true) ->
  forall table count,
    NoDup (map fst (table ++ files)) ->
    fst (upload_embeddings files ok table count) = table ++ files.
Proof.
  induction files as [|[k emb] r IH]; intros Hok table count Hnd; simpl.
  - now rewrite app_nil_r.
  - pose proof (Hok (k, emb) (or_introl eq_refl)) as Hk. simpl in Hk. rewrite Hk.
    assert (Hn : ~ In k (map fst table)).
    { rewrite map_app in Hnd. simpl in Hnd. apply NoDup_remove_2 in Hnd.
      intro Hin. apply Hnd. apply in_or_app. now left. }
    rewrite (dict_set_fresh _ table k emb Hn).
    rewrite IH; rewrite <- ?app_assoc; [reflexivity| |exact Hnd].
    intros item Hin. apply Hok. now right.
Qed.

Lemma load_rows_fresh (rows cache : dict ndarray) :
  (forall item, In item rows -> snd item <> []) ->
  NoDup (map fst (cache ++ rows)) -> load_rows rows cache = cache ++ rows.
Proof.
  revert cache. induction rows as [|[sid emb] r IH]; intros cache Hne H; simpl.
  - now rewrite app_nil_r.
  - assert (Hn : ~ In sid (map fst cache)).
    { rewrite map_app in H. simpl in H. apply NoDup_remove_2 in H.
      intro Hin. apply H. apply in_or_app. now left. }
    destruct (Nat.ltb_spec 0 (List.length emb)) as [_|Hl].
    + rewrite (dict_set_fresh _ cache sid emb Hn).
      rewrite IH; rewrite <- ?app_assoc; [reflexivity| |exact H].
      intros item Hin. apply Hne. now right.
    + exfalso. apply (Hne (sid, emb) (or_introl eq_refl)).
      destruct emb; [reflexivity|simpl in Hl; lia].
Qed.

End UploadScript.

(** X20. The upload script, on embedding files that name each student once:
    every file whose upsert goes through is in the table afterwards under
    its student, every other student's row is as before, and the printed
    count is the number of upserts that went through.  When all go through
    into an empty table and no embedding is empty, a service that loads
    from Supabase gets exactly the cache that a service without Supabase
    loads from the files. *)
Theorem upload_embeddings_effect
    (files : dict ndarray) (upsert_ok : Z -> bool) (table : dict ndarray) :
  NoDup (map fst files) ->
  let r := upload_embeddings files upsert_ok table 0 in
  (forall sid emb, In (sid, emb) files -> upsert_ok sid = true ->
     dict_get (fst r) sid = Some emb)
  /\ (forall sid, ~ In sid (map fst files) \/ upsert_ok sid = false ->
        dict_get (fst r) sid = dict_get table sid)
  /\ snd r = List.length (filter (fun f => upsert_ok (fst f)) files)
  /\ ((forall item, In item files -> upsert_ok (fst item) = true /\ snd item <> []) ->
      load_rows (fst (upload_embeddings files upsert_ok [] 0)) [] = load_files files []).
Proof.
  intros Hnd r. unfold r. split; [|split; [|split]].
  - clear r. generalize 0%nat as count. revert table.
    induction files as [|[k emb0] rest IH]; intros table count sid emb Hin Hok;
      [destruct Hin|].
    simpl in Hnd. inversion Hnd as [|? ? Hnotin Hnd']; subst.
    simpl. destruct Hin as [Heq|Hin].
    + injection Heq as -> ->. rewrite Hok.
      rewrite upload_embeddings_other by (now left). apply dict_get_set.
    + destruct (upsert_ok k); now apply IH.
  - intros sid Hor. now apply upload_embeddings_other.
  - now rewrite upload_embeddings_count.
  - intro Hall.
    rewrite (upload_embeddings_all files upsert_ok (fun item Hin => proj1 (Hall item Hin))
               [] 0%nat Hnd).
    simpl. rewrite (load_rows_fresh files [] (fun item Hin => proj2 (Hall item Hin)) Hnd).
    now rewrite (load_files_fresh files [] Hnd).
Qed.

Lemma upload_embeddings_effect_witness :
  dict_get (fst (upload_embeddings [(1%Z, pixel_a); (2%Z, pixel_b)]
                   (fun sid => Z.eqb sid 2) [(2%Z, pixel_a)] 0)) 2
  = Some pixel_b.
Proof.
  assert (Hnd : NoDup (map fst [(1%Z, pixel_a); (2%Z, pixel_b)])).
  { simpl. constructor; [intros [H|[]]; discriminate|].
    constructor; [intros []|constructor]. }
  apply (upload_embeddings_effect [(1%Z, pixel_a); (2%Z, pixel_b)]
           (fun sid => Z.eqb sid 2) [(2%Z, pixel_a)] Hnd).
  - right. now left.
  - reflexivity.
Defined.

Section Migrate.

Context {A : Type}.

Lemma full_but_last_cons (n : nat) (b : list A) (rest : list (list A)) :
  List.length b = n -> (1 <= n)%nat -> full_but_last n rest -> full_but_last n (b :: rest).
Proof.
  intros Hb Hn Hr. destruct rest as [|b' rest]; simpl; [lia|]. now split.
Qed.

Lemma copy_rows_spec (execute : list A -> bool) (rows : list A) :
  forall batch inserted,
    (List.length batch < 200)%nat ->
    exists new,
      fst (copy_rows execute rows batch inserted) = inserted ++ new /\
      (snd (copy_rows execute rows batch inserted) = true ->
         List.concat new = batch ++ rows) /\
      (exists rest, batch ++ rows = List.concat new ++ rest) /\
      full_but_last 200 new /\
      (forall b, In b new -> execute b = true).
Proof.
  induction rows as [|row rows IH]; intros batch inserted Hlen.
  - cbn [copy_rows]. destruct batch as [|x batch].
    + exists []. rewrite app_nil_r.
      split; [reflexivity|split; [reflexivity|split; [now exists []|split]]].
      * exact I.
      * intros b [].
    + destruct (execute (x :: batch)) eqn:E.
      * exists [x :: batch]. cbn [fst snd List.concat]. rewrite !app_nil_r.
        split; [reflexivity|split; [reflexivity|split;
          [exists []; now rewrite !app_nil_r|split]]].
        -- simpl in *. lia.
        -- intros b [<-|[]]. exact E.
      * exists []. rewrite app_nil_r. cbn [fst snd List.concat].
        split; [reflexivity|split; [discriminate|split; [|split]]].
        -- now exists ((x :: batch) ++ []).
        -- exact I.
        -- intros b [].
  - cbn [copy_rows].
    assert (Hl : List.length (batch ++ [row]) = S (List.length batch))
      by (rewrite length_app; simpl; lia).
    destruct (Nat.leb_spec 200 (List.length (batch ++ [row]))) as [Hfull|Hroom].
    + destruct (execute (batch ++ [row])) eqn:E.
      * destruct (IH [] (inserted ++ [batch ++ [row]]) ltac:(simpl; lia))
          as (new & Hf & Hc & (rest & Hp) & Hb & He).
        exists ((batch ++ [row]) :: new).
        rewrite Hf, <- app_assoc. cbn [List.concat app].
        split; [reflexivity|split; [|split; [|split]]].
        -- intro Hs. rewrite (Hc Hs). cbn [app]. now rewrite <- app_assoc.
        -- exists rest. cbn [app] in Hp. rewrite Hp, <- !app_assoc. reflexivity.
        -- apply full_but_last_cons; [lia|lia|assumption].
        -- intros b [<-|Hin]; [exact E|now apply He].
      * exists []. rewrite app_nil_r. cbn [fst snd List.concat].
        split; [reflexivity|split; [discriminate|split; [|split]]].
        -- now exists (batch ++ row :: rows).
        -- exact I.
        -- intros b [].
    + destruct (IH (batch ++ [row]) inserted ltac:(lia))
        as (new & Hf & Hc & (rest & Hp) & Hb & He).
      exists new. rewrite <- app_assoc in Hc, Hp. cbn [app] in Hc, Hp.
      split; [exact Hf|split; [exact Hc|split; [now exists rest|split; assumption]]].
Qed.

Lemma copy_rows_all_ok (execute : list A -> bool) (rows : list A) :
  (forall b, execute b = true) ->
  forall batch inserted, snd (copy_rows execute rows batch inserted) = true.
Proof.
  intro Hall. induction rows as [|row rows IH]; intros batch inserted; cbn [copy_rows].
  - destruct batch; [reflexivity|]. now rewrite Hall.
  - destruct (Nat.leb 200 (List.length (batch ++ [row]))); [rewrite Hall|]; apply IH.
Qed.

End Migrate.

(** X21. The migration hands the rows of a table to the target in batches:
    the batches whose execution returned, put end to end, are an initial
    part of the rows in their order, and all of the rows when no execution
    failed; every batch but the last holds 200 rows and the last between 1
    and 200; nothing is executed for a table without rows, and nothing after
    a batch that fails. *)
Theorem copy_table_batches (A : Type) (execute : list A -> bool) (rows : list A) :
  let r := copy_table execute rows in
  (snd r = true -> List.concat (fst r) = rows)
  /\ (exists rest, rows = List.concat (fst r) ++ rest)
  /\ full_but_last 200 (fst r)
  /\ (forall b, In b (fst r) -> execute b = true)
  /\ ((forall b, execute b = true) -> snd r = true)
  /\ copy_table execute [] = ([], true).
Proof.
  cbv zeta. unfold copy_table.
  destruct (copy_rows_spec execute rows [] [] ltac:(simpl; lia))
    as (new & Hf & Hc & Hp & Hb & He).
  simpl in Hf, Hc, Hp. rewrite Hf.
  split; [exact Hc|split; [exact Hp|split; [exact Hb|split; [exact He|split]]]].
  - intro Hall. now apply copy_rows_all_ok.
  - reflexivity.
Qed.

Section TargetUrl.

Lemma strip_prefix_app (p r : string) : strip_prefix p (p ++ r) = Some r.
Proof.
  induction p as [|a p IH]; simpl; [now destruct r|].
  now rewrite Ascii.eqb_refl.
Qed.

Lemma strip_prefix_Some (p s r : string) :
  strip_prefix p s = Some r -> s = (p ++ r)%string.
Proof.
  revert s. induction p as [|a p IH]; intros s H; simpl in *.
  - destruct s; now injection H as ->.
  - destruct s as [|b s]; [discriminate|].
    destruct (Ascii.eqb_spec a b) as [->|]; [|discriminate].
    now rewrite (IH s H).
Qed.

End TargetUrl.

(** X22. The conversion of the target URL replaces the scheme [postgres://]
    by [postgresql+psycopg2://] and keeps what follows; any other URL is
    kept as it is; the result never starts with [postgres://], so that
    converting twice is converting once. *)
Theorem convert_target_url_spec (target_url rest : string) :
  convert_target_url ("postgres://" ++ rest) = ("postgresql+psycopg2://" ++ rest)%string
  /\ (strip_prefix "postgres://" target_url = None ->
      convert_target_url target_url = target_url)
  /\ strip_prefix "postgres://" (convert_target_url target_url) = None
  /\ convert_target_url (convert_target_url target_url) = convert_target_url target_url.
Proof.
  assert (H3 : strip_prefix "postgres://" (convert_target_url target_url) = None).
  { unfold convert_target_url.
    destruct (strip_prefix "postgres://" target_url) as [r|] eqn:E; [reflexivity|exact E]. }
  split; [|split; [|split]].
  - unfold convert_target_url. now rewrite strip_prefix_app.
  - intro H. unfold convert_target_url. now rewrite H.
  - exact H3.
  - unfold convert_target_url at 1. now rewrite H3.
Qed.

(** * Thresholds and references of another variant *)

(** X23. Raising the thresholds never loses a match: a frame matched to a
    student is matched to the same student under any larger thresholds. *)
Theorem match_embedding_threshold_monotone
    (cache : dict ndarray) (e : ndarray) (tnn tfb tnn' tfb' : R) (sid : Z) :
  (tnn <= tnn')%R -> (tfb <= tfb')%R ->
  match_embedding cache e tnn tfb = Some sid ->
  match_embedding cache e tnn' tfb' = Some sid.
Proof.
  intros Hn Hf H. apply match_embedding_Some in H as (d & c & Hs & Hle).
  apply match_embedding_Some. exists d, c. split; [assumption|].
  destruct c; simpl in *; lra.
Qed.

Lemma match_embedding_threshold_monotone_witness :
  match_embedding [(1%Z, unit_512)] unit_512 1 1 = Some 1%Z.
Proof.
  apply (match_embedding_threshold_monotone [(1%Z, unit_512)] unit_512
           THRESHOLD_NN THRESHOLD_FALLBACK 1 1 1).
  - unfold THRESHOLD_NN. lra.
  - unfold THRESHOLD_FALLBACK. lra.
  - apply self_match_single, self_distance_unit_512.
Defined.

(** X24. A reference that cannot be compared with the query, such as one of
    the other variant's shape, does not show in the result: the scan and the
    matcher give what they give on the store without it. *)
Theorem incomparable_reference_invisible
    (l1 l2 : dict ndarray) (sid : Z) (ref e : ndarray) (tnn tfb : R) :
  distance ref e = None ->
  scan (l1 ++ (sid, ref) :: l2) e = scan (l1 ++ l2) e
  /\ match_embedding (l1 ++ (sid, ref) :: l2) e tnn tfb = match_embedding (l1 ++ l2) e tnn tfb.
Proof.
  intro Hd.
  assert (Hs : scan (l1 ++ (sid, ref) :: l2) e = scan (l1 ++ l2) e).
  { unfold scan. rewrite !fold_left_app. cbn [fold_left].
    unfold scan_step at 2. cbn [snd]. now rewrite Hd. }
  split; [exact Hs|]. unfold match_embedding. now rewrite Hs.
Qed.

Lemma incomparable_reference_invisible_witness :
  match_embedding [(1%Z, pixel_a); (2%Z, unit_512)] unit_512 THRESHOLD_NN THRESHOLD_FALLBACK
  = match_embedding [(2%Z, unit_512)] unit_512 THRESHOLD_NN THRESHOLD_FALLBACK.
Proof.
  apply (incomparable_reference_invisible [] [(2%Z, unit_512)] 1 pixel_a unit_512
           THRESHOLD_NN THRESHOLD_FALLBACK).
  apply distance_no_broadcast; unfold shape, pixel_a, unit_512;
    cbn [List.length]; rewrite !length_zeros; lia.
Defined.
